(** * Order controller of pet_food: a shallow embedding

    The file embeds [src/controllers/order.controller.ts]: the order-creation
    workflow ([createOrder]), the reads ([getAllOrders], [getOrderByUuid],
    [getOrderStatus]), the dispatch to the execution channel
    ([executeOrder]) and the status overwrite ([updateOrderStatus]).

    The handlers are [async] functions over Sequelize models, an Express
    response and an RxJS subject.  They are embedded in a state-and-exception
    monad over a [World] that holds the committed tables, the rows staged in
    the open transaction, the subscribers of the channel, and the chronological
    trace of the effects the handler performs ([next], [res.json], commit,
    rollback, publish).  Each [await] is run to its end before the next
    statement, one handler at a time.

    The models, the error enumeration, the message factory and the channel
    are imported by the controller from files that are not among the sources;
    they are modelled here by what the controller uses of them.  A storage
    call may reject, the commit and the rollback of a transaction included:
    the world carries the schedule of the calls that do.  The quantities and
    their sums are JS numbers, that is binary64 floats, added and compared as
    the language does. *)

From Stdlib Require Import String ZArith List Bool Lia Relations QArith.
From Stdlib Require Import Floats.SpecFloat.
Import ListNotations.
Local Open Scope string_scope.
Local Open Scope list_scope.
Local Open Scope Z_scope.

(** ** Data model *)

(** A JS [number]: a binary64 float ([prec = 53], [emax = 1024]); the values
    of the language are the ones [valid_binary 53 1024] accepts. *)
Definition number := spec_float.

(** The literal [0]. *)
Definition js_zero : number := S754_zero false.

(** [x + y] on numbers, rounded to nearest, ties to even. *)
Definition js_add (x y : number) : number := SFadd 53 1024 x y.

(** [x !== y] on numbers: true of NaN against anything, false of the two
    zeros. *)
Definition js_strict_neq (x y : number) : bool := negb (SFeqb x y).

(** The number nearest to the integer [z]. *)
Definition number_of_Z (z : Z) : number := binary_normalize 53 1024 z 0 false.

Definition Uuid := string.

(** Modelled from the spec: [OrderStatus] of [models/orders], a file that is
    not among the sources; its members are the four states of the lifecycle,
    under the names the controller uses. *)
Inductive OrderStatus := CREATED | RUNNING | COMPLETED | FAILED.

(** Modelled from the spec: [ErrorEnum] of [errors/httpErrors], a file that
    is not among the sources; the members the controller passes to [next],
    which the specification calls InternalError, InvalidParameter,
    QuantityMismatch, NotFound, AlreadyStarted and ChannelUnavailable. *)
Inductive ErrorEnum :=
| INTERNAL_SERVER_ERROR
| PARAM_NOT_VALID
| QUANTITIES_DO_NOT_MATCH
| ORDER_NOT_FOUND
| ORDER_ALREADY_STARTED
| WS_NOT_AVAILABLE.

(** Modelled from the spec: the rows of the tables of [models/], files that
    are not among the sources, with the attributes the controller reads and
    writes.  A quantity is the number the request carries; the creation
    timestamp of an order is never read or written by the controller and is
    left out. *)
Record UserRow := { user_id : Z }.
Record FoodRow := { food_id : Z; food_name : string }.
Record PlaceRow := { place_id : Z; place_name : string }.
Record OrderRow :=
  { order_uuid : Uuid; order_status : OrderStatus; order_userId : Z }.
Record OrderDetailRow :=
  { detail_orderUuid : Uuid; detail_quantity : number; detail_foodId : Z;
    detail_withdrawal_order : Z }.
Record OrderPlaceRow :=
  { oplace_orderUuid : Uuid; oplace_placeId : Z;
    oplace_quantity_to_deliver : number }.

(** Modelled from the spec: the two item shapes of
    [util/parametersInterface], a file that is not among the sources, with
    the fields the controller reads. *)
Module OrderDetailCreateModel.
Record t := { name : string; quantity : number; withdrawal_order : Z }.
End OrderDetailCreateModel.

Module OrderPlaceCreateModel.
Record t := { name : string; quantity_to_deliver : number }.
End OrderPlaceCreateModel.

(** What a handler reads of [req]: [req.user.id], [req.body.places],
    [req.body.foods] and [req.params.uuid]. *)
Record Request :=
  { req_user_id : Z;
    req_body_places : list OrderPlaceCreateModel.t;
    req_body_foods : list OrderDetailCreateModel.t;
    req_params_uuid : Uuid }.

(** The committed tables, each in insertion order. *)
Record Db :=
  { users : list UserRow;
    foods : list FoodRow;
    places : list PlaceRow;
    orders : list OrderRow;
    order_details : list OrderDetailRow;
    order_places : list OrderPlaceRow }.

(** The rows written under [{ transaction: transaction }] and not yet
    committed. *)
Record Tx :=
  { tx_orders : list OrderRow;
    tx_details : list OrderDetailRow;
    tx_places : list OrderPlaceRow }.

Definition no_tx : Tx :=
  {| tx_orders := []; tx_details := []; tx_places := [] |}.

(** Modelled from the spec: an order fetched with
    [include: [{ model: Food }, { model: Place }]], the associations being
    declared in [models/], which is not among the sources: the order, with
    its resolved food and place data, every joined catalog row coming with
    the line item that links it to the order. *)
Record OrderJSON :=
  { json_order : OrderRow;
    json_foods : list (FoodRow * OrderDetailRow);
    json_places : list (PlaceRow * OrderPlaceRow) }.

(** Modelled from the spec: [MessageType] and the message built by
    [messageFactory.getMessage], of [websockets/messageFactory], a file that
    is not among the sources: a message kind, the key of the order and the
    payload. *)
Inductive MessageType := EXECUTE_ORDER.

Record Message :=
  { msg_type : MessageType; msg_uuid : Uuid; msg_payload : OrderJSON }.

(** What is thrown: a storage call that rejects, the dereference of [null],
    or a transaction asked to commit or roll back when it is finished. *)
Inductive Exception := DbFailure | TypeError | AlreadyFinished.

(** The [finished] mark of a transaction. *)
Inductive Finished := FinishedCommit | FinishedRollback.

(** The argument of [next]: a member of [ErrorEnum], or a caught exception. *)
Inductive NextArg := Enum (e : ErrorEnum) | Caught (x : Exception).

Inductive Body :=
| MessageBody (message : string)
| StatusBody (status : string)
| OrderBody (order : OrderJSON).

(** The effects a handler performs: [transaction.rollback()] is called; a
    commit is made durable; [next] is called; [res.status(code).json(body)]
    is called; a message is published on the channel. *)
Inductive Event :=
| EvRollback
| EvCommit
| EvNext (a : NextArg)
| EvJson (code : Z) (body : Body)
| EvPublish (m : Message).

(** [observers] counts the subscribers of [executedOrderStream$]; [uuidv4] is
    the key the next [Order.create] draws; [faults] schedules the storage
    calls to come, [true] for a call that rejects (an exhausted schedule
    means that every further call answers); [finished] is the mark of the
    transaction in hand. *)
Record World :=
  { db : Db;
    tx : Tx;
    observers : nat;
    uuidv4 : Uuid;
    trace : list Event;
    faults : list bool;
    finished : option Finished }.

Definition boot (fs : list bool) (subscribers : nat) (key : Uuid) (d : Db)
  : World :=
  {| db := d; tx := no_tx; observers := subscribers; uuidv4 := key;
     trace := []; faults := fs; finished := None |}.

Definition with_db (d : Db) (w : World) : World :=
  {| db := d; tx := tx w; observers := observers w; uuidv4 := uuidv4 w;
     trace := trace w; faults := faults w; finished := finished w |}.

Definition with_tx (t : Tx) (w : World) : World :=
  {| db := db w; tx := t; observers := observers w; uuidv4 := uuidv4 w;
     trace := trace w; faults := faults w; finished := finished w |}.

Definition with_faults (fs : list bool) (w : World) : World :=
  {| db := db w; tx := tx w; observers := observers w; uuidv4 := uuidv4 w;
     trace := trace w; faults := fs; finished := finished w |}.

Definition emit (e : Event) (w : World) : World :=
  {| db := db w; tx := tx w; observers := observers w; uuidv4 := uuidv4 w;
     trace := trace w ++ [e]; faults := faults w; finished := finished w |}.

Definition with_finished (f : option Finished) (w : World) : World :=
  {| db := db w; tx := tx w; observers := observers w; uuidv4 := uuidv4 w;
     trace := trace w; faults := faults w; finished := f |}.

(** ** The monad of the handlers *)

Inductive Outcome (A : Type) :=
| Ok (a : A)
| Throw (x : Exception).
Arguments Ok {A} a.
Arguments Throw {A} x.

Definition M (A : Type) := World -> Outcome A * World.

Definition ret {A} (a : A) : M A := fun w => (Ok a, w).

Definition bind {A B} (m : M A) (k : A -> M B) : M B :=
  fun w =>
    match m w with
    | (Ok a, w') => k a w'
    | (Throw x, w') => (Throw x, w')
    end.

Definition throw {A} (x : Exception) : M A := fun w => (Throw x, w).

(** A call whose promise is not awaited: neither its value nor its rejection
    reaches the handler. *)
Definition unawaited {A} (m : M A) : M unit :=
  fun w => (Ok tt, snd (m w)).

(** [try { body } catch (error) { handler }] *)
Definition try_catch {A} (body : M A) (handler : Exception -> M A) : M A :=
  fun w =>
    match body w with
    | (Ok a, w') => (Ok a, w')
    | (Throw x, w') => handler x w'
    end.

Declare Scope handler_scope.
Delimit Scope handler_scope with handler.
Notation "x <- m ;; k" := (bind m (fun x => k))
  (at level 100, m at next level, right associativity) : handler_scope.
Notation "m ;; k" := (bind m (fun _ => k))
  (at level 100, right associativity) : handler_scope.
Local Open Scope handler_scope.

Definition run {A} (m : M A) (w : World) : World := snd (m w).
Definition outcome {A} (m : M A) (w : World) : Outcome A := fst (m w).

(** An awaited storage call: it consults the fault schedule, then answers. *)
Definition storage {A} (query : World -> A * World) : M A :=
  fun w =>
    match faults w with
    | true :: fs => (Throw DbFailure, with_faults fs w)
    | false :: fs => let (a, w') := query (with_faults fs w) in (Ok a, w')
    | [] => let (a, w') := query w in (Ok a, w')
    end.

Definition reading {A} (f : Db -> A) : M A :=
  storage (fun w => (f (db w), w)).

Definition staging {A} (f : World -> A * Tx) : M A :=
  storage (fun w => let (a, t) := f w in (a, with_tx t w)).

(** ** Express and the channel *)

Definition next (a : NextArg) : M unit := fun w => (Ok tt, emit (EvNext a) w).

Definition res_status_json (code : Z) (b : Body) : M unit :=
  fun w => (Ok tt, emit (EvJson code b) w).

(** Modelled from the spec: [executedOrderStream$.observed], of
    [websockets/server.websocket], a file that is not among the sources: the
    channel has at least one subscriber. *)
Definition observed (w : World) : bool := (0 <? observers w)%nat.

Definition executedOrderStream_observed : M bool :=
  fun w => (Ok (observed w), w).

(** [executedOrderStream$.next(message)] *)
Definition executedOrderStream_next (m : Message) : M unit :=
  fun w => (Ok tt, emit (EvPublish m) w).

Definition messageFactory_getMessage (t : MessageType) (u : Uuid)
  (payload : OrderJSON) : Message :=
  {| msg_type := t; msg_uuid := u; msg_payload := payload |}.

(** ** The Sequelize models and the transaction *)

Definition OrderStatus_eqb (a b : OrderStatus) : bool :=
  match a, b with
  | CREATED, CREATED | RUNNING, RUNNING
  | COMPLETED, COMPLETED | FAILED, FAILED => true
  | _, _ => false
  end.

Module User.
Definition lookup (d : Db) (id : Z) : option UserRow :=
  find (fun u => user_id u =? id) (users d).

Definition findByPk (id : Z) : M (option UserRow) :=
  reading (fun d => lookup d id).
End User.

Module Food.
(** [findOne({ where: { name } })]: the first row of that name. *)
Definition lookup (d : Db) (n : string) : option FoodRow :=
  find (fun f => String.eqb (food_name f) n) (foods d).

Definition findOne (n : string) : M (option FoodRow) :=
  reading (fun d => lookup d n).
End Food.

Module Place.
Definition lookup (d : Db) (n : string) : option PlaceRow :=
  find (fun p => String.eqb (place_name p) n) (places d).

Definition findOne (n : string) : M (option PlaceRow) :=
  reading (fun d => lookup d n).
End Place.

Module OrderDetail.
Definition create (row : OrderDetailRow) : M OrderDetailRow :=
  staging (fun w =>
    (row, {| tx_orders := tx_orders (tx w);
             tx_details := tx_details (tx w) ++ [row];
             tx_places := tx_places (tx w) |})).
End OrderDetail.

Module OrderPlace.
Definition create (row : OrderPlaceRow) : M OrderPlaceRow :=
  staging (fun w =>
    (row, {| tx_orders := tx_orders (tx w);
             tx_details := tx_details (tx w);
             tx_places := tx_places (tx w) ++ [row] |})).
End OrderPlace.

Module Order.
Definition lookup (d : Db) (u : Uuid) : option OrderRow :=
  find (fun o => String.eqb (order_uuid o) u) (orders d).

(** The rows joined by [include: [{ model: Food }]]. *)
Definition include_foods (d : Db) (u : Uuid)
  : list (FoodRow * OrderDetailRow) :=
  flat_map
    (fun od =>
       if String.eqb (detail_orderUuid od) u
       then match find (fun f => food_id f =? detail_foodId od) (foods d) with
            | Some f => [(f, od)]
            | None => []
            end
       else [])
    (order_details d).

(** The rows joined by [include: [{ model: Place }]]. *)
Definition include_places (d : Db) (u : Uuid)
  : list (PlaceRow * OrderPlaceRow) :=
  flat_map
    (fun op =>
       if String.eqb (oplace_orderUuid op) u
       then match find (fun p => place_id p =? oplace_placeId op) (places d) with
            | Some p => [(p, op)]
            | None => []
            end
       else [])
    (order_places d).

Definition lookup_include (d : Db) (u : Uuid) : option OrderJSON :=
  match lookup d u with
  | Some o =>
      Some {| json_order := o;
              json_foods := include_foods d u;
              json_places := include_places d u |}
  | None => None
  end.

(** [Order.create({ status, userId }, { transaction })]: the key is drawn,
    the row is staged. *)
Definition create (s : OrderStatus) (userId : Z) : M OrderRow :=
  staging (fun w =>
    let o := {| order_uuid := uuidv4 w; order_status := s;
                order_userId := userId |} in
    (o, {| tx_orders := tx_orders (tx w) ++ [o];
           tx_details := tx_details (tx w);
           tx_places := tx_places (tx w) |})).

Definition findOne (u : Uuid) : M (option OrderRow) :=
  reading (fun d => lookup d u).

Definition findByPk (u : Uuid) : M (option OrderRow) :=
  reading (fun d => lookup d u).

Definition findByPk_include (u : Uuid) : M (option OrderJSON) :=
  reading (fun d => lookup_include d u).

Definition findOne_include (u : Uuid) : M (option OrderJSON) :=
  reading (fun d => lookup_include d u).

Definition set_status (u : Uuid) (s : OrderStatus) (o : OrderRow)
  : OrderRow :=
  if String.eqb (order_uuid o) u
  then {| order_uuid := order_uuid o; order_status := s;
          order_userId := order_userId o |}
  else o.

Definition overwrite (u : Uuid) (s : OrderStatus) (d : Db) : Db :=
  {| users := users d; foods := foods d; places := places d;
     orders := map (set_status u s) (orders d);
     order_details := order_details d;
     order_places := order_places d |}.

(** [order.update({ status })], outside any transaction: the row of that
    key is rewritten. *)
Definition update (o : OrderRow) (s : OrderStatus) : M unit :=
  storage (fun w => (tt, with_db (overwrite (order_uuid o) s (db w)) w)).
End Order.

(** The tables once the staged rows are made durable. *)
Definition persist (d : Db) (t : Tx) : Db :=
  {| users := users d; foods := foods d; places := places d;
     orders := orders d ++ tx_orders t;
     order_details := order_details d ++ tx_details t;
     order_places := order_places d ++ tx_places t |}.

(** [sequelize.transaction()]: a new transaction, not finished, with nothing
    staged. *)
Definition sequelize_transaction : M unit :=
  storage (fun w => (tt, with_finished None (with_tx no_tx w))).

Module transaction.
(** [transaction.rollback()], as Sequelize's [Transaction] has it: a
    finished transaction throws; otherwise the transaction is marked
    finished, whether the storage then answers, and the staged rows are
    discarded, or rejects. *)
Definition rollback : M unit :=
  fun w =>
    let w1 := emit EvRollback w in
    match finished w1 with
    | Some _ => (Throw AlreadyFinished, w1)
    | None =>
        storage (fun w2 => (tt, with_tx no_tx w2))
          (with_finished (Some FinishedRollback) w1)
    end.

(** [transaction.commit()], as Sequelize's [Transaction] has it: a finished
    transaction throws; otherwise the transaction is marked finished,
    whether the storage then answers, and the staged rows are made durable,
    or rejects. *)
Definition commit : M unit :=
  fun w =>
    match finished w with
    | Some _ => (Throw AlreadyFinished, w)
    | None =>
        storage (fun w2 =>
          (tt, emit EvCommit
                 (with_db (persist (db w2) (tx w2)) (with_tx no_tx w2))))
          (with_finished (Some FinishedCommit) w)
    end.
End transaction.

(** ** The controller *)

Import OrderDetailCreateModel OrderPlaceCreateModel.

(** [for (const food of foods) { ... }] with the running [sumWithdrawal];
    [None] when the body has returned from the handler. *)
Fixpoint foods_loop (order : OrderRow) (fs : list OrderDetailCreateModel.t)
  (sumWithdrawal : number) : M (option number) :=
  match fs with
  | [] => ret (Some sumWithdrawal)
  | food :: rest =>
      f <- Food.findOne (OrderDetailCreateModel.name food) ;;
      match f with
      | None =>
          transaction.rollback ;;
          next (Enum PARAM_NOT_VALID) ;;
          ret None
      | Some f =>
          OrderDetail.create
            {| detail_orderUuid := order_uuid order;
               detail_quantity := quantity food;
               detail_foodId := food_id f;
               detail_withdrawal_order := withdrawal_order food |} ;;
          foods_loop order rest (js_add sumWithdrawal (quantity food))
      end
  end.

(** [for (const place of places) { ... }] with the running [sumDeliver]. *)
Fixpoint places_loop (order : OrderRow) (ps : list OrderPlaceCreateModel.t)
  (sumDeliver : number) : M (option number) :=
  match ps with
  | [] => ret (Some sumDeliver)
  | place :: rest =>
      p <- Place.findOne (OrderPlaceCreateModel.name place) ;;
      match p with
      | None =>
          transaction.rollback ;;
          next (Enum PARAM_NOT_VALID) ;;
          ret None
      | Some p =>
          OrderPlace.create
            {| oplace_orderUuid := order_uuid order;
               oplace_placeId := place_id p;
               oplace_quantity_to_deliver := quantity_to_deliver place |} ;;
          places_loop order rest
            (js_add sumDeliver (quantity_to_deliver place))
      end
  end.

(** The first rollback, for a requester that is not found, is not awaited in
    the source: it is called in place and its rejection, if any, is lost. *)
Definition createOrder (req : Request) : M unit :=
  sequelize_transaction ;;
  try_catch
    (user <- User.findByPk (req_user_id req) ;;
     match user with
     | None =>
         unawaited transaction.rollback ;;
         next (Enum INTERNAL_SERVER_ERROR)
     | Some user =>
         let places := req_body_places req in
         let foods := req_body_foods req in
         order <- Order.create CREATED (user_id user) ;;
         withdrawn <- foods_loop order foods js_zero ;;
         match withdrawn with
         | None => ret tt
         | Some sumWithdrawal =>
             delivered <- places_loop order places js_zero ;;
             match delivered with
             | None => ret tt
             | Some sumDeliver =>
                 if js_strict_neq sumDeliver sumWithdrawal
                 then transaction.rollback ;;
                      next (Enum QUANTITIES_DO_NOT_MATCH)
                 else transaction.commit ;;
                      res_status_json 201 (MessageBody "Order created")
             end
         end
     end)
    (fun error =>
       transaction.rollback ;;
       next (Caught error)).

Definition getOrderByUuid (req : Request) : M unit :=
  try_catch
    (order <- Order.findOne_include (req_params_uuid req) ;;
     match order with
     | None => next (Enum ORDER_NOT_FOUND)
     | Some order => res_status_json 200 (OrderBody order)
     end)
    (fun error => next (Caught error)).

(** The [switch] of [getOrderStatus]. *)
Definition status_label (s : OrderStatus) : string :=
  match s with
  | CREATED => "Created"
  | FAILED => "Failed"
  | RUNNING => "Running"
  | COMPLETED => "Completed"
  end.

Definition getOrderStatus (req : Request) : M unit :=
  try_catch
    (order <- Order.findOne (req_params_uuid req) ;;
     match order with
     | None => next (Enum ORDER_NOT_FOUND)
     | Some order =>
         let status := status_label (order_status order) in
         res_status_json 200 (StatusBody status)
     end)
    (fun error => next (Caught error)).

Definition executeOrder (req : Request) : M unit :=
  try_catch
    (order <- Order.findByPk_include (req_params_uuid req) ;;
     match order with
     | None => next (Enum ORDER_NOT_FOUND)
     | Some order =>
         if negb (OrderStatus_eqb (order_status (json_order order)) CREATED)
         then next (Enum ORDER_ALREADY_STARTED)
         else
           live <- executedOrderStream_observed ;;
           if negb live
           then next (Enum WS_NOT_AVAILABLE)
           else
             executedOrderStream_next
               (messageFactory_getMessage EXECUTE_ORDER
                  (order_uuid (json_order order)) order) ;;
             res_status_json 200 (MessageBody "Order started succesfully")
     end)
    (fun error => next (Caught error)).

(** No [try] here: the dereference of a missing order escapes as an
    exception.  The [console.log] line has no effect on the state. *)
Definition updateOrderStatus (uuid : Uuid) (status : OrderStatus) : M unit :=
  order <- Order.findByPk uuid ;;
  match order with
  | None => throw TypeError
  | Some order => Order.update order status
  end.

(** ** Postconditions of a run *)

(** [post m w Q]: running [m] from [w] ends in an outcome and a world that
    satisfy [Q].  A handler is a total function, so [post] speaks of the one
    run there is. *)
Definition post {A} (m : M A) (w : World) (Q : Outcome A -> World -> Prop)
  : Prop :=
  Q (fst (m w)) (snd (m w)).

(** [w'] is [w] further along its fault schedule: a rejection still to come
    in [w'] was already scheduled in [w]. *)
Definition later (w w' : World) : Prop :=
  db w' = db w /\ tx w' = tx w /\ observers w' = observers w /\
  uuidv4 w' = uuidv4 w /\ trace w' = trace w /\ finished w' = finished w /\
  (In true (faults w') -> In true (faults w)).

(** ** The vocabulary of the properties *)

Definition created_reply : list Event :=
  [EvCommit; EvJson 201 (MessageBody "Order created")].

(** The two sums as the code accumulates them: from [0], left to right, each
    step rounded. *)
Definition total_withdrawal (fs : list OrderDetailCreateModel.t) : number :=
  fold_left js_add (map quantity fs) js_zero.

Definition total_delivery (ps : list OrderPlaceCreateModel.t) : number :=
  fold_left js_add (map quantity_to_deliver ps) js_zero.



Definition food_resolves (d : Db) (food : OrderDetailCreateModel.t) : Prop :=
  Food.lookup d (OrderDetailCreateModel.name food) <> None.

Definition place_resolves (d : Db) (place : OrderPlaceCreateModel.t) : Prop :=
  Place.lookup d (OrderPlaceCreateModel.name place) <> None.

Definition food_unknown (d : Db) (food : OrderDetailCreateModel.t) : Prop :=
  Food.lookup d (OrderDetailCreateModel.name food) = None.

Definition place_unknown (d : Db) (place : OrderPlaceCreateModel.t) : Prop :=
  Place.lookup d (OrderPlaceCreateModel.name place) = None.

(** [row] is the line item of [food] in the order [u]: it carries the
    requested quantity and sequencing hint and points to the catalog entry the
    name resolves to. *)
Definition detail_for (d : Db) (u : Uuid) (food : OrderDetailCreateModel.t)
  (row : OrderDetailRow) : Prop :=
  detail_orderUuid row = u /\
  detail_quantity row = quantity food /\
  detail_withdrawal_order row = withdrawal_order food /\
  exists f, Food.lookup d (OrderDetailCreateModel.name food) = Some f /\
            detail_foodId row = food_id f.

Definition oplace_for (d : Db) (u : Uuid) (place : OrderPlaceCreateModel.t)
  (row : OrderPlaceRow) : Prop :=
  oplace_orderUuid row = u /\
  oplace_quantity_to_deliver row = quantity_to_deliver place /\
  exists p, Place.lookup d (OrderPlaceCreateModel.name place) = Some p /\
            oplace_placeId row = place_id p.

Definition stage_details (rows : list OrderDetailRow) (w : World) : World :=
  with_tx {| tx_orders := tx_orders (tx w);
             tx_details := tx_details (tx w) ++ rows;
             tx_places := tx_places (tx w) |} w.

Definition stage_places (rows : list OrderPlaceRow) (w : World) : World :=
  with_tx {| tx_orders := tx_orders (tx w);
             tx_details := tx_details (tx w);
             tx_places := tx_places (tx w) ++ rows |} w.

(** The world after [await transaction.rollback(); return next(a)], when the
    rollback is answered. *)
Definition abort (a : NextArg) (w : World) : World :=
  emit (EvNext a)
    (with_tx no_tx (with_finished (Some FinishedRollback) (emit EvRollback w))).

(** The world [createOrder] leaves when it fails with [a] and the storage
    answers every call. *)
Definition refused (a : NextArg) (n : nat) (u : Uuid) (d : Db) : World :=
  {| db := d; tx := no_tx; observers := n; uuidv4 := u;
     trace := [EvRollback; EvNext a]; faults := [];
     finished := Some FinishedRollback |}.

(** The world [createOrder] leaves when it commits the order of [userId]
    with the line items [details] and [deliveries]. *)
Definition created (userId : Z) (details : list OrderDetailRow)
  (deliveries : list OrderPlaceRow) (n : nat) (u : Uuid) (d : Db) : World :=
  {| db := persist d
             {| tx_orders := [{| order_uuid := u; order_status := CREATED;
                                 order_userId := userId |}];
                tx_details := details;
                tx_places := deliveries |};
     tx := no_tx; observers := n; uuidv4 := u;
     trace := created_reply; faults := [];
     finished := Some FinishedCommit |}.

(** [d'] is [d] with one more order, of key [u], made of the request [req]:
    the requester is stored, every name resolves, the two sums as the code
    accumulates them are equal for [!==], and the rows added are the order
    and one line item per item of the request. *)
Definition commits (d : Db) (u : Uuid) (req : Request) (d' : Db) : Prop :=
  exists user details deliveries,
    User.lookup d (req_user_id req) = Some user /\
    Forall (food_resolves d) (req_body_foods req) /\
    Forall (place_resolves d) (req_body_places req) /\
    js_strict_neq (total_delivery (req_body_places req))
      (total_withdrawal (req_body_foods req)) = false /\
    Forall2 (detail_for d u) (req_body_foods req) details /\
    Forall2 (oplace_for d u) (req_body_places req) deliveries /\
    d' = persist d
           {| tx_orders := [{| order_uuid := u; order_status := CREATED;
                               order_userId := user_id user |}];
              tx_details := details;
              tx_places := deliveries |}.

(** What makes [createOrder] pass [a] to [next], in tables [d] and under the
    schedule [fs]: the check of the code that fails first, or a storage call
    that rejects. *)
Definition cause (d : Db) (fs : list bool) (req : Request) (a : NextArg)
  : Prop :=
  match a with
  | Enum INTERNAL_SERVER_ERROR => User.lookup d (req_user_id req) = None
  | Enum PARAM_NOT_VALID =>
      User.lookup d (req_user_id req) <> None /\
      (Exists (food_unknown d) (req_body_foods req) \/
       (Forall (food_resolves d) (req_body_foods req) /\
        Exists (place_unknown d) (req_body_places req)))
  | Enum QUANTITIES_DO_NOT_MATCH =>
      User.lookup d (req_user_id req) <> None /\
      Forall (food_resolves d) (req_body_foods req) /\
      Forall (place_resolves d) (req_body_places req) /\
      js_strict_neq (total_delivery (req_body_places req))
        (total_withdrawal (req_body_foods req)) = true
  | Caught x => x = DbFailure /\ In true fs
  | Enum _ => False
  end.

(** How the loop over the foods leaves the world it started in: run to its
    end, with the sum and the rows staged; returned from, on a name that does
    not resolve; or interrupted by a storage call that rejects, which may be
    the rollback. *)
Definition foods_loop_post (order : OrderRow)
  (fs : list OrderDetailCreateModel.t) (acc : number) (w : World)
  (r : Outcome (option number)) (w' : World) : Prop :=
  db w' = db w /\ observers w' = observers w /\ uuidv4 w' = uuidv4 w /\
  (In true (faults w') -> In true (faults w)) /\
  match r with
  | Ok (Some s) =>
      s = fold_left js_add (map quantity fs) acc /\
      Forall (food_resolves (db w)) fs /\
      (exists rows,
         Forall2 (detail_for (db w) (order_uuid order)) fs rows /\
         tx w' = tx (stage_details rows w)) /\
      trace w' = trace w /\ finished w' = finished w
  | Ok None =>
      Exists (food_unknown (db w)) fs /\
      trace w' = trace w ++ [EvRollback; EvNext (Enum PARAM_NOT_VALID)] /\
      tx w' = no_tx
  | Throw x =>
      x = DbFailure /\ In true (faults w) /\
      ((finished w' = None /\ trace w' = trace w) \/
       (finished w' = Some FinishedRollback /\
        trace w' = trace w ++ [EvRollback]))
  end.

Definition places_loop_post (order : OrderRow)
  (ps : list OrderPlaceCreateModel.t) (acc : number) (w : World)
  (r : Outcome (option number)) (w' : World) : Prop :=
  db w' = db w /\ observers w' = observers w /\ uuidv4 w' = uuidv4 w /\
  (In true (faults w') -> In true (faults w)) /\
  match r with
  | Ok (Some s) =>
      s = fold_left js_add (map quantity_to_deliver ps) acc /\
      Forall (place_resolves (db w)) ps /\
      (exists rows,
         Forall2 (oplace_for (db w) (order_uuid order)) ps rows /\
         tx w' = tx (stage_places rows w)) /\
      trace w' = trace w /\ finished w' = finished w
  | Ok None =>
      Exists (place_unknown (db w)) ps /\
      trace w' = trace w ++ [EvRollback; EvNext (Enum PARAM_NOT_VALID)] /\
      tx w' = no_tx
  | Throw x =>
      x = DbFailure /\ In true (faults w) /\
      ((finished w' = None /\ trace w' = trace w) \/
       (finished w' = Some FinishedRollback /\
        trace w' = trace w ++ [EvRollback]))
  end.

(** How the [try] block of [createOrder] ends, from the world [w] in which
    the transaction has just been opened. *)
Definition try_post (req : Request) (w : World) (r : Outcome unit)
  (w' : World) : Prop :=
  (In true (faults w') -> In true (faults w)) /\
  match r with
  | Ok _ =>
      (trace w' = trace w ++ created_reply /\
       commits (db w) (uuidv4 w) req (db w') /\ tx w' = no_tx) \/
      (db w' = db w /\ tx w' = no_tx /\
       exists a, trace w' = trace w ++ [EvRollback; EvNext a] /\
                 cause (db w) (faults w) req a)
  | Throw x =>
      x = DbFailure /\ db w' = db w /\ In true (faults w) /\
      ((finished w' = None /\ trace w' = trace w) \/
       (finished w' = Some FinishedRollback /\
        trace w' = trace w ++ [EvRollback]) \/
       (finished w' = Some FinishedCommit /\ trace w' = trace w))
  end.

(** How a call of [createOrder] ends. It has committed one order made of the
    request and answered 201. Or the tables are as before and: it has called
    the rollback and then [next], with an error that has its cause; or an
    exception escapes, because the transaction could not be opened, or
    because the rollback itself, called once or twice, has thrown. *)
Definition createOrder_post (req : Request) (w : World) (r : Outcome unit)
  (w' : World) : Prop :=
  (r = Ok tt /\ trace w' = trace w ++ created_reply /\
   commits (db w) (uuidv4 w) req (db w') /\ tx w' = no_tx) \/
  (r = Ok tt /\ db w' = db w /\ tx w' = no_tx /\
   exists a, trace w' = trace w ++ [EvRollback; EvNext a] /\
             cause (db w) (faults w) req a) \/
  (db w' = db w /\ In true (faults w) /\
   ((r = Throw DbFailure /\ trace w' = trace w) \/
    (r = Throw DbFailure /\ trace w' = trace w ++ [EvRollback]) \/
    (r = Throw AlreadyFinished /\
     (trace w' = trace w ++ [EvRollback] \/
      trace w' = trace w ++ [EvRollback; EvRollback])))).

(** ** Sample data *)

Definition pantry : Db :=
  {| users := [{| user_id := 1 |}];
     foods := [{| food_id := 10; food_name := "bread" |}];
     places := [{| place_id := 20; place_name := "table1" |}];
     orders := []; order_details := []; order_places := [] |}.

(** An item of a request, its quantity being the number of an integer. *)
Definition item (n : string) (q : Z) : OrderDetailCreateModel.t :=
  {| OrderDetailCreateModel.name := n; quantity := number_of_Z q;
     withdrawal_order := 1 |}.

Definition drop (n : string) (q : Z) : OrderPlaceCreateModel.t :=
  {| OrderPlaceCreateModel.name := n; quantity_to_deliver := number_of_Z q |}.

Definition request (requester : Z) (fs : list OrderDetailCreateModel.t)
  (ps : list OrderPlaceCreateModel.t) : Request :=
  {| req_user_id := requester; req_body_places := ps; req_body_foods := fs;
     req_params_uuid := "" |}.

Definition about (u : Uuid) : Request :=
  {| req_user_id := 1; req_body_places := []; req_body_foods := [];
     req_params_uuid := u |}.

Definition running_order : Db :=
  {| users := [{| user_id := 1 |}];
     foods := [{| food_id := 10; food_name := "bread" |}];
     places := [{| place_id := 20; place_name := "table1" |}];
     orders := [{| order_uuid := "k"; order_status := RUNNING;
                   order_userId := 1 |}];
     order_details := []; order_places := [] |}.

Definition created_order : Db :=
  {| users := [{| user_id := 1 |}];
     foods := [{| food_id := 10; food_name := "bread" |}];
     places := [{| place_id := 20; place_name := "table1" |}];
     orders := [{| order_uuid := "k"; order_status := CREATED;
                   order_userId := 1 |}];
     order_details := [{| detail_orderUuid := "k";
                          detail_quantity := number_of_Z 2;
                          detail_foodId := 10;
                          detail_withdrawal_order := 1 |}];
     order_places := [{| oplace_orderUuid := "k"; oplace_placeId := 20;
                         oplace_quantity_to_deliver := number_of_Z 2 |}] |}.

Definition created_order_json : OrderJSON :=
  {| json_order := {| order_uuid := "k"; order_status := CREATED;
                      order_userId := 1 |};
     json_foods := [({| food_id := 10; food_name := "bread" |},
                     {| detail_orderUuid := "k";
                        detail_quantity := number_of_Z 2;
                        detail_foodId := 10;
                        detail_withdrawal_order := 1 |})];
     json_places := [({| place_id := 20; place_name := "table1" |},
                      {| oplace_orderUuid := "k"; oplace_placeId := 20;
                         oplace_quantity_to_deliver := number_of_Z 2 |})] |}.


(** The numbers nearest to 0.1, 0.2 and 0.3. *)
Definition tenth : number := S754_finite false 7205759403792794 (-56).
Definition fifth : number := S754_finite false 7205759403792794 (-55).
Definition three_tenths : number := S754_finite false 5404319552844595 (-54).

(** The schedule under which the commit of a request of one food and one
    place is the call that rejects: the eight calls are the opening, the
    lookup of the requester, the creations and lookups of the order, of the
    food and of the place, and the commit. *)
Definition commit_rejects : list bool :=
  [false; false; false; false; false; false; false; true].

(** ** The lifecycle and sequences of calls *)

(** One step of the lifecycle of the specification:
    CREATED to RUNNING, RUNNING to COMPLETED or to FAILED. *)
Definition forward (a b : OrderStatus) : bool :=
  match a, b with
  | CREATED, RUNNING | RUNNING, COMPLETED | RUNNING, FAILED => true
  | _, _ => false
  end.

(** Zero or more steps forward. *)
Definition advances : OrderStatus -> OrderStatus -> Prop :=
  clos_refl_trans OrderStatus (fun a b => forward a b = true).

Definition rank (s : OrderStatus) : nat :=
  match s with
  | CREATED => 0
  | RUNNING => 1
  | COMPLETED | FAILED => 2
  end.

(** A call of the controller; a creation comes with the key that
    [Order.create] draws for it. *)
Inductive Call :=
| CallCreateOrder (key : Uuid) (req : Request)
| CallGetOrderByUuid (req : Request)
| CallGetOrderStatus (req : Request)
| CallExecuteOrder (req : Request)
| CallUpdateOrderStatus (uuid : Uuid) (status : OrderStatus).

Definition with_key (k : Uuid) (w : World) : World :=
  {| db := db w; tx := tx w; observers := observers w; uuidv4 := k;
     trace := trace w; faults := faults w; finished := finished w |}.

Definition perform (c : Call) (w : World) : World :=
  match c with
  | CallCreateOrder k req => run (createOrder req) (with_key k w)
  | CallGetOrderByUuid req => run (getOrderByUuid req) w
  | CallGetOrderStatus req => run (getOrderStatus req) w
  | CallExecuteOrder req => run (executeOrder req) w
  | CallUpdateOrderStatus uuid status => run (updateOrderStatus uuid status) w
  end.

Fixpoint session (cs : list Call) (w : World) : World :=
  match cs with
  | [] => w
  | c :: rest => session rest (perform c w)
  end.

(** The caller of [updateOrderStatus] passes a status one step forward of the
    stored one. *)
Definition step_forward (c : Call) (w : World) : Prop :=
  match c with
  | CallUpdateOrderStatus uuid status =>
      forall o, In o (orders (db w)) -> order_uuid o = uuid ->
                forward (order_status o) status = true
  | _ => True
  end.

Fixpoint disciplined (cs : list Call) (w : World) : Prop :=
  match cs with
  | [] => True
  | c :: rest => step_forward c w /\ disciplined rest (perform c w)
  end.

Definition lifecycle : list Call :=
  [CallCreateOrder "k" (request 1 [item "bread" 2] [drop "table1" 2]);
   CallExecuteOrder (about "k");
   CallUpdateOrderStatus "k" RUNNING;
   CallGetOrderStatus (about "k");
   CallUpdateOrderStatus "k" COMPLETED].

(** ** The listing of the orders *)

(** [Order.findAll({ include: [{ model: Food }, { model: Place }] })]: every
    stored order, in insertion order, each with its joined rows. *)
Definition Order_all_include (d : Db) : list OrderJSON :=
  map (fun o => {| json_order := o;
                   json_foods := Order.include_foods d (order_uuid o);
                   json_places := Order.include_places d (order_uuid o) |})
    (orders d).

Definition Order_findAll_include : M (list OrderJSON) :=
  reading Order_all_include.

(** The array that [res.status(200).json(allOrders)] sends is the value of
    the run, [Some allOrders]; the value is [None] when the error went to
    [next]. *)
Definition getAllOrders (req : Request) : M (option (list OrderJSON)) :=
  try_catch
    (allOrders <- Order_findAll_include ;;
     ret (Some allOrders))
    (fun error =>
       next (Caught error) ;;
       ret None).

(** ** Vocabulary of the further properties *)

(** The answers of a handler among the events of a trace: the calls of
    [next] and of [res.json]. *)
Definition is_reply (e : Event) : bool :=
  match e with
  | EvNext _ | EvJson _ _ => true
  | _ => false
  end.

Definition replies (t : list Event) : list Event := filter is_reply t.

Definition is_publish (e : Event) : bool :=
  match e with
  | EvPublish _ => true
  | _ => false
  end.

Definition published (t : list Event) : list Event := filter is_publish t.

(** The message [executeOrder] builds for the order [j]. *)
Definition execute_message (j : OrderJSON) : Message :=
  {| msg_type := EXECUTE_ORDER; msg_uuid := order_uuid (json_order j);
     msg_payload := j |}.

(** Every line item points to a stored order and to a stored catalog entry,
    and every order to a stored user. *)
Definition integral (d : Db) : Prop :=
  Forall (fun r =>
            (exists f, In f (foods d) /\ food_id f = detail_foodId r) /\
            (exists o, In o (orders d) /\ order_uuid o = detail_orderUuid r))
    (order_details d) /\
  Forall (fun r =>
            (exists p, In p (places d) /\ place_id p = oplace_placeId r) /\
            (exists o, In o (orders d) /\ order_uuid o = oplace_orderUuid r))
    (order_places d) /\
  Forall (fun o => exists usr, In usr (users d) /\ user_id usr = order_userId o)
    (orders d).

(** One step of the tables: nothing, one more order made of a request, or
    the status of the orders of one key overwritten. *)
Definition db_step (d d' : Db) : Prop :=
  d' = d \/
  (exists u req, commits d u req d') \/
  (exists u s, Order.lookup d u <> None /\ d' = Order.overwrite u s d).

(** A call served by the controller: one of [Call], or [getAllOrders]. *)
Inductive Served :=
| ServeCall (c : Call)
| ServeGetAllOrders (req : Request).

Definition serve (s : Served) (w : World) : World :=
  match s with
  | ServeCall c => perform c w
  | ServeGetAllOrders req => run (getAllOrders req) w
  end.

Fixpoint serve_all (ss : list Served) (w : World) : World :=
  match ss with
  | [] => w
  | s :: rest => serve_all rest (serve s w)
  end.

(** The key and the owner of an order. *)
Definition identity (o : OrderRow) : Uuid * Z :=
  (order_uuid o, order_userId o).

(** The tables [d'] hold what [d] holds and possibly more: the users and the
    catalog are the same; the line items of [d] are there, unchanged and in
    place, possibly followed by new ones; so are the orders of [d], with
    their key and their owner. *)
Definition extends (d d' : Db) : Prop :=
  users d' = users d /\ foods d' = foods d /\ places d' = places d /\
  (exists more, order_details d' = order_details d ++ more) /\
  (exists more, order_places d' = order_places d ++ more) /\
  (exists more, map identity (orders d') = map identity (orders d) ++ more).

(** A joined food row [(f, r)] of the order of key [u]: [r] is a stored line
    item of that order and [f] a stored food with the id [r] refers to. *)
Definition food_joined (d : Db) (u : Uuid) (fr : FoodRow * OrderDetailRow)
  : Prop :=
  In (snd fr) (order_details d) /\ detail_orderUuid (snd fr) = u /\
  In (fst fr) (foods d) /\ food_id (fst fr) = detail_foodId (snd fr).

Definition place_joined (d : Db) (u : Uuid) (pr : PlaceRow * OrderPlaceRow)
  : Prop :=
  In (snd pr) (order_places d) /\ oplace_orderUuid (snd pr) = u /\
  In (fst pr) (places d) /\ place_id (fst pr) = oplace_placeId (snd pr).

(** The events [executeOrder] adds to the trace when the storage answers its
    query, by the checks it makes in turn. *)
Definition execute_events (found : option OrderJSON) (live : bool)
  : list Event :=
  match found with
  | None => [EvNext (Enum ORDER_NOT_FOUND)]
  | Some j =>
      if negb (OrderStatus_eqb (order_status (json_order j)) CREATED)
      then [EvNext (Enum ORDER_ALREADY_STARTED)]
      else if negb live
           then [EvNext (Enum WS_NOT_AVAILABLE)]
           else [EvPublish (execute_message j);
                 EvJson 200 (MessageBody "Order started succesfully")]
  end.

(** The call is not an [updateOrderStatus]. *)
Definition not_update (s : Served) : Prop :=
  match s with
  | ServeCall (CallUpdateOrderStatus _ _) => False
  | _ => True
  end.

(** ** Reasoning rules *)

Lemma later_refl w : later w w.
Proof. unfold later. repeat split; auto. Qed.

Lemma later_with_faults b fs w :
  faults w = b :: fs -> later w (with_faults fs w).
Proof.
  intros E. unfold later; simpl. repeat split; auto.
  intros H. rewrite E. right. exact H.
Qed.

Section Rules.
Context {A B : Type}.

Lemma post_ret (a : A) w (Q : Outcome A -> World -> Prop) :
  Q (Ok a) w -> post (ret a) w Q.
Proof. exact (fun H => H). Qed.

Lemma post_throw x w (Q : Outcome A -> World -> Prop) :
  Q (Throw x) w -> post (throw x) w Q.
Proof. exact (fun H => H). Qed.

Lemma post_bind (m : M A) (k : A -> M B) w (Q : Outcome B -> World -> Prop) :
  post m w (fun r w' =>
              match r with
              | Ok a => post (k a) w' Q
              | Throw x => Q (Throw x) w'
              end) ->
  post (bind m k) w Q.
Proof.
  unfold post, bind. destruct (m w) as [[a | x] w']; simpl; auto.
Qed.

Lemma post_try_catch (body : M A) (handler : Exception -> M A) w
  (Q : Outcome A -> World -> Prop) :
  post body w (fun r w' =>
                 match r with
                 | Ok a => Q (Ok a) w'
                 | Throw x => post (handler x) w' Q
                 end) ->
  post (try_catch body handler) w Q.
Proof.
  unfold post, try_catch. destruct (body w) as [[a | x] w']; simpl; auto.
Qed.

Lemma post_storage (query : World -> A * World) w
  (Q : Outcome A -> World -> Prop) :
  (forall w0, later w w0 -> In true (faults w) -> Q (Throw DbFailure) w0) ->
  (forall w0, later w w0 -> Q (Ok (fst (query w0))) (snd (query w0))) ->
  post (storage query) w Q.
Proof.
  intros Hthrow Hok. unfold post, storage.
  destruct (faults w) as [| [|] fs] eqn:E; simpl.
  - specialize (Hok w (later_refl w)). destruct (query w); exact Hok.
  - apply Hthrow; [exact (later_with_faults _ _ _ E) | left; reflexivity].
  - specialize (Hok _ (later_with_faults _ _ _ E)).
    destruct (query (with_faults fs w)); exact Hok.
Qed.

Lemma post_unawaited (m : M A) w (Q : Outcome unit -> World -> Prop) :
  post m w (fun _ w' => Q (Ok tt) w') -> post (unawaited m) w Q.
Proof. exact (fun H => H). Qed.

Lemma post_weaken (m : M A) w (P Q : Outcome A -> World -> Prop) :
  post m w P -> (forall r w', P r w' -> Q r w') -> post m w Q.
Proof. unfold post; auto. Qed.

(** With the schedule exhausted a storage call just answers. *)
Lemma storage_answers (query : World -> A * World) w :
  faults w = [] -> storage query w = (Ok (fst (query w)), snd (query w)).
Proof.
  intros H. unfold storage. rewrite H. destruct (query w); reflexivity.
Qed.
End Rules.

Lemma post_reading {A} (f : Db -> A) w (Q : Outcome A -> World -> Prop) :
  (forall w0, later w w0 -> In true (faults w) -> Q (Throw DbFailure) w0) ->
  (forall w0, later w w0 -> Q (Ok (f (db w))) w0) ->
  post (reading f) w Q.
Proof.
  intros Hthrow Hok. apply post_storage; [exact Hthrow |].
  intros w0 L. simpl. rewrite (proj1 L). apply Hok, L.
Qed.

Lemma post_staging {A} (f : World -> A * Tx) w
  (Q : Outcome A -> World -> Prop) :
  (forall w0, later w w0 -> In true (faults w) -> Q (Throw DbFailure) w0) ->
  (forall w0, later w w0 ->
     Q (Ok (fst (f w0))) (with_tx (snd (f w0)) w0)) ->
  post (staging f) w Q.
Proof.
  intros Hthrow Hok. apply post_storage; [exact Hthrow |].
  intros w0 L. specialize (Hok w0 L). destruct (f w0); exact Hok.
Qed.

(** The three ways a rollback ends: the transaction is finished and it
    throws; the storage rejects it; the storage answers and nothing stays
    staged. *)
Lemma post_rollback w (Q : Outcome unit -> World -> Prop) :
  (finished w <> None -> Q (Throw AlreadyFinished) (emit EvRollback w)) ->
  (finished w = None ->
   forall w0,
     later (with_finished (Some FinishedRollback) (emit EvRollback w)) w0 ->
     In true (faults w) -> Q (Throw DbFailure) w0) ->
  (finished w = None ->
   forall w0,
     later (with_finished (Some FinishedRollback) (emit EvRollback w)) w0 ->
     Q (Ok tt) (with_tx no_tx w0)) ->
  post transaction.rollback w Q.
Proof.
  intros Hdone Hrej Hok. unfold post, transaction.rollback. simpl.
  destruct (finished w) as [f |] eqn:E.
  - apply Hdone. discriminate.
  - apply (post_storage (fun w2 => (tt, with_tx no_tx w2))).
    + intros w0 L Hin. exact (Hrej eq_refl w0 L Hin).
    + intros w0 L. exact (Hok eq_refl w0 L).
Qed.

(** The three ways a commit ends. *)
Lemma post_commit w (Q : Outcome unit -> World -> Prop) :
  (finished w <> None -> Q (Throw AlreadyFinished) w) ->
  (finished w = None ->
   forall w0,
     later (with_finished (Some FinishedCommit) w) w0 ->
     In true (faults w) -> Q (Throw DbFailure) w0) ->
  (finished w = None ->
   forall w0,
     later (with_finished (Some FinishedCommit) w) w0 ->
     Q (Ok tt)
       (emit EvCommit
          (with_db (persist (db w0) (tx w0)) (with_tx no_tx w0)))) ->
  post transaction.commit w Q.
Proof.
  intros Hdone Hrej Hok. unfold post, transaction.commit.
  destruct (finished w) as [f |] eqn:E.
  - apply Hdone. discriminate.
  - apply (post_storage
             (fun w2 =>
                (tt, emit EvCommit
                       (with_db (persist (db w2) (tx w2))
                          (with_tx no_tx w2))))).
    + intros w0 L Hin. exact (Hrej eq_refl w0 L Hin).
    + intros w0 L. exact (Hok eq_refl w0 L).
Qed.

Lemma post_next a w (Q : Outcome unit -> World -> Prop) :
  Q (Ok tt) (emit (EvNext a) w) -> post (next a) w Q.
Proof. exact (fun H => H). Qed.

Lemma post_json code b w (Q : Outcome unit -> World -> Prop) :
  Q (Ok tt) (emit (EvJson code b) w) -> post (res_status_json code b) w Q.
Proof. exact (fun H => H). Qed.

Lemma post_both {A} (m : M A) w (P Q : Outcome A -> World -> Prop) :
  post m w P -> post m w Q -> post m w (fun r w' => P r w' /\ Q r w').
Proof. unfold post. auto. Qed.

Ltac unpack_later :=
  repeat match goal with
         | L : later _ _ |- _ =>
             destruct L as (? & ? & ? & ? & ? & ? & ?)
         end;
  simpl in *.

Lemma stage_details_nil w : stage_details [] w = w.
Proof.
  destruct w as [d [o dt p] n u t f fin]. unfold stage_details, with_tx; simpl.
  rewrite app_nil_r. reflexivity.
Qed.

Lemma stage_places_nil w : stage_places [] w = w.
Proof.
  destruct w as [d [o dt p] n u t f fin]. unfold stage_places, with_tx; simpl.
  rewrite app_nil_r. reflexivity.
Qed.

Lemma stage_details_cons row rows w :
  stage_details rows (stage_details [row] w) = stage_details (row :: rows) w.
Proof.
  unfold stage_details, with_tx; simpl. rewrite <- app_assoc. reflexivity.
Qed.

Lemma stage_places_cons row rows w :
  stage_places rows (stage_places [row] w) = stage_places (row :: rows) w.
Proof.
  unfold stage_places, with_tx; simpl. rewrite <- app_assoc. reflexivity.
Qed.

(** ** The loops of createOrder, whatever the storage does *)

Lemma foods_loop_ends order fs :
  forall acc w,
    finished w = None ->
    post (foods_loop order fs acc) w (foods_loop_post order fs acc w).
Proof.
  induction fs as [| food rest IH]; intros acc w Hfin; simpl.
  - apply post_ret. unfold foods_loop_post.
    repeat split; auto.
    exists []. split; [constructor |]. rewrite stage_details_nil.
    reflexivity.
  - apply post_bind, post_reading.
    { intros w0 L Hin. unpack_later. unfold foods_loop_post.
      repeat split; auto. left. split; congruence. }
    intros w0 L0.
    destruct (Food.lookup (db w) (OrderDetailCreateModel.name food))
      as [f |] eqn:E.
    + apply post_bind, post_staging.
      { intros w1 L1 Hin. unpack_later. unfold foods_loop_post.
        repeat split; auto; try congruence. left. split; congruence. }
      intros w1 L1. eapply post_weaken.
      { apply IH. unpack_later. congruence. }
      intros r w' (Hd & Ho & Hk & Hs & Hr). unpack_later.
      unfold foods_loop_post.
      split; [congruence |]. split; [congruence |]. split; [congruence |].
      split; [auto |].
      destruct r as [[s |] | x].
      * destruct Hr as (Hsum & Hall & (rows & Hrows & Htx) & Ht & Hf).
        split; [exact Hsum |].
        replace (db w1) with (db w) in * by congruence.
        split.
        { constructor; [unfold food_resolves; congruence | exact Hall]. }
        split; [| split; congruence].
        exists ({| detail_orderUuid := order_uuid order;
                   detail_quantity := quantity food;
                   detail_foodId := food_id f;
                   detail_withdrawal_order := withdrawal_order food |}
                  :: rows).
        split.
        { constructor; [| exact Hrows].
          repeat split. exists f. split; [exact E | reflexivity]. }
        rewrite Htx. simpl.
        replace (tx w1) with (tx w) by congruence.
        rewrite <- app_assoc. reflexivity.
      * destruct Hr as (Hex & Ht & Htx).
        replace (db w1) with (db w) in * by congruence.
        split; [apply Exists_cons_tl; exact Hex |].
        split; [congruence | exact Htx].
      * destruct Hr as (Hx & Hin & Hc).
        split; [exact Hx |]. split; [auto |].
        destruct Hc as [(Hf & Ht) | (Hf & Ht)];
          [left | right]; split; congruence.
    + apply post_bind, post_rollback.
      { intros Hne. unpack_later. congruence. }
      { intros _ w1 L1 Hin. unpack_later. unfold foods_loop_post.
        repeat split; auto; try congruence.
        right. split; congruence. }
      intros _ w1 L1.
      apply post_bind, post_next, post_ret. unpack_later.
      unfold foods_loop_post; simpl.
      split; [congruence |]. split; [congruence |]. split; [congruence |].
      split; [auto |].
      split; [apply Exists_cons_hd; exact E |]. split; [| reflexivity].
      replace (trace w1) with (trace w ++ [EvRollback]) by congruence.
      rewrite <- app_assoc. reflexivity.
Qed.

Lemma places_loop_ends order ps :
  forall acc w,
    finished w = None ->
    post (places_loop order ps acc) w (places_loop_post order ps acc w).
Proof.
  induction ps as [| place rest IH]; intros acc w Hfin; simpl.
  - apply post_ret. unfold places_loop_post.
    repeat split; auto.
    exists []. split; [constructor |]. rewrite stage_places_nil.
    reflexivity.
  - apply post_bind, post_reading.
    { intros w0 L Hin. unpack_later. unfold places_loop_post.
      repeat split; auto. left. split; congruence. }
    intros w0 L0.
    destruct (Place.lookup (db w) (OrderPlaceCreateModel.name place))
      as [f |] eqn:E.
    + apply post_bind, post_staging.
      { intros w1 L1 Hin. unpack_later. unfold places_loop_post.
        repeat split; auto; try congruence. left. split; congruence. }
      intros w1 L1. eapply post_weaken.
      { apply IH. unpack_later. congruence. }
      intros r w' (Hd & Ho & Hk & Hs & Hr). unpack_later.
      unfold places_loop_post.
      split; [congruence |]. split; [congruence |]. split; [congruence |].
      split; [auto |].
      destruct r as [[s |] | x].
      * destruct Hr as (Hsum & Hall & (rows & Hrows & Htx) & Ht & Hf).
        split; [exact Hsum |].
        replace (db w1) with (db w) in * by congruence.
        split.
        { constructor; [unfold place_resolves; congruence | exact Hall]. }
        split; [| split; congruence].
        exists ({| oplace_orderUuid := order_uuid order;
                   oplace_placeId := place_id f;
                   oplace_quantity_to_deliver := quantity_to_deliver place |}
                  :: rows).
        split.
        { constructor; [| exact Hrows].
          repeat split. exists f. split; [exact E | reflexivity]. }
        rewrite Htx. simpl.
        replace (tx w1) with (tx w) by congruence.
        rewrite <- app_assoc. reflexivity.
      * destruct Hr as (Hex & Ht & Htx).
        replace (db w1) with (db w) in * by congruence.
        split; [apply Exists_cons_tl; exact Hex |].
        split; [congruence | exact Htx].
      * destruct Hr as (Hx & Hin & Hc).
        split; [exact Hx |]. split; [auto |].
        destruct Hc as [(Hf & Ht) | (Hf & Ht)];
          [left | right]; split; congruence.
    + apply post_bind, post_rollback.
      { intros Hne. unpack_later. congruence. }
      { intros _ w1 L1 Hin. unpack_later. unfold places_loop_post.
        repeat split; auto; try congruence.
        right. split; congruence. }
      intros _ w1 L1.
      apply post_bind, post_next, post_ret. unpack_later.
      unfold places_loop_post; simpl.
      split; [congruence |]. split; [congruence |]. split; [congruence |].
      split; [auto |].
      split; [apply Exists_cons_hd; exact E |]. split; [| reflexivity].
      replace (trace w1) with (trace w ++ [EvRollback]) by congruence.
      rewrite <- app_assoc. reflexivity.
Qed.

(** ** How createOrder ends, whatever the storage does *)

Lemma cause_later d fs fs' req a :
  (In true fs' -> In true fs) -> cause d fs' req a -> cause d fs req a.
Proof.
  intros Hs. destruct a as [[] | x]; simpl; auto.
  intros (Hx & Hin). split; auto.
Qed.

Lemma createOrder_ends req w :
  post (createOrder req) w (createOrder_post req w).
Proof.
  unfold createOrder. apply post_bind, post_storage.
  { intros w0 L Hin. unpack_later. unfold createOrder_post.
    right. right. split; [congruence |]. split; [exact Hin |].
    left. split; [reflexivity | congruence]. }
  intros w0 L0. simpl.
  apply post_try_catch.
  apply (post_weaken _ _ (try_post req (with_finished None (with_tx no_tx w0)))).
  - (* the try block *)
    apply post_bind, post_reading.
    { intros w1 L1 Hin. unpack_later. unfold try_post. simpl.
      split; [auto |]. split; [reflexivity |]. split; [congruence |].
      split; [exact Hin |]. left. split; congruence. }
    intros w1 L1. simpl.
    destruct (User.lookup (db w0) (req_user_id req)) as [user |] eqn:E.
    2:{ apply post_bind, post_unawaited, post_rollback.
        - intros Hne. unpack_later. congruence.
        - intros _ w2 L2 Hin. apply post_next. unpack_later.
          unfold try_post; simpl. split; [auto |]. right.
          split; [congruence |]. split; [congruence |].
          exists (Enum INTERNAL_SERVER_ERROR). split; [| exact E].
          replace (trace w2) with (trace w0 ++ [EvRollback]) by congruence.
          rewrite <- app_assoc. reflexivity.
        - intros _ w2 L2. apply post_next. unpack_later.
          unfold try_post; simpl. split; [auto |]. right.
          split; [congruence |]. split; [reflexivity |].
          exists (Enum INTERNAL_SERVER_ERROR). split; [| exact E].
          replace (trace w2) with (trace w0 ++ [EvRollback]) by congruence.
          rewrite <- app_assoc. reflexivity. }
    apply post_bind, post_staging.
    { intros w2 L2 Hin. unpack_later. unfold try_post. simpl.
      split; [auto |]. split; [reflexivity |]. split; [congruence |].
      split; [auto |]. left. split; congruence. }
    intros w2 L2. simpl. apply post_bind.
    eapply post_weaken.
    { apply foods_loop_ends. unpack_later. congruence. }
    intros r3 w3 (Hd3 & Ho3 & Hk3 & Hs3 & Hr3). unpack_later.
    assert (Edb : db w2 = db w0) by congruence.
    assert (Ekey : uuidv4 w2 = uuidv4 w0) by congruence.
    assert (Etr : trace w2 = trace w0) by congruence.
    assert (Etx : tx w2 = no_tx) by congruence.
    assert (Efin : finished w2 = None) by congruence.
    assert (Esch : In true (faults w2) -> In true (faults w0)) by auto.
    rewrite Edb in *.
    destruct r3 as [[sumWithdrawal |] | x].
    3:{ destruct Hr3 as (Hx & Hin & Hc). unfold try_post; simpl.
        split; [auto |]. split; [exact Hx |]. split; [congruence |].
        split; [auto |].
        destruct Hc as [(Hf & Ht) | (Hf & Ht)];
          [left | right; left]; split; congruence. }
    2:{ apply post_ret. destruct Hr3 as (Hex & Ht & Htx3).
        unfold try_post; simpl. split; [auto |]. right.
        split; [congruence |]. split; [exact Htx3 |].
        exists (Enum PARAM_NOT_VALID). split; [congruence |].
        simpl. split; [congruence |]. left. exact Hex. }
    destruct Hr3 as (Hsw & Hfoods & (rows & Hrows & Htx3) & Ht3 & Hf3).
    apply post_bind. eapply post_weaken.
    { apply places_loop_ends. congruence. }
    intros r4 w4 (Hd4 & Ho4 & Hk4 & Hs4 & Hr4).
    rewrite Hd3 in *.
    destruct r4 as [[sumDeliver |] | x].
    3:{ destruct Hr4 as (Hx & Hin & Hc). unfold try_post; simpl.
        split; [auto |]. split; [exact Hx |]. split; [congruence |].
        split; [auto |].
        destruct Hc as [(Hf & Ht) | (Hf & Ht)];
          [left | right; left]; split; congruence. }
    2:{ apply post_ret. destruct Hr4 as (Hex & Ht & Htx4).
        unfold try_post; simpl. split; [auto |]. right.
        split; [congruence |]. split; [exact Htx4 |].
        exists (Enum PARAM_NOT_VALID). split; [congruence |].
        simpl. split; [congruence |]. right. split; assumption. }
    destruct Hr4 as (Hsd & Hplaces & (prows & Hprows & Htx4) & Ht4 & Hf4).
    assert (Hsums : sumDeliver = total_delivery (req_body_places req) /\
                    sumWithdrawal = total_withdrawal (req_body_foods req))
      by (split; assumption).
    destruct Hsums as [Esd Esw].
    destruct (js_strict_neq sumDeliver sumWithdrawal) eqn:Hneq.
    + apply post_bind, post_rollback.
      * intros Hne. congruence.
      * intros _ w5 L5 Hin. unpack_later. unfold try_post; simpl.
        split; [auto |]. split; [reflexivity |]. split; [congruence |].
        split; [auto |]. right. left. split; [congruence |].
        congruence.
      * intros _ w5 L5. apply post_next. unpack_later.
        unfold try_post; simpl. split; [auto |]. right.
        split; [congruence |]. split; [reflexivity |].
        exists (Enum QUANTITIES_DO_NOT_MATCH). split.
        { replace (trace w5) with (trace w0 ++ [EvRollback]) by congruence.
          rewrite <- app_assoc. reflexivity. }
        simpl. split; [congruence |]. split; [exact Hfoods |].
        split; [exact Hplaces |]. congruence.
    + apply post_bind, post_commit.
      * intros Hne. congruence.
      * intros _ w5 L5 Hin. unpack_later. unfold try_post; simpl.
        split; [auto |]. split; [reflexivity |]. split; [congruence |].
        split; [auto |]. right. right. split; congruence.
      * intros _ w5 L5. apply post_json. unpack_later.
        unfold try_post; simpl. split; [auto |]. left.
        split.
        { unfold created_reply. rewrite <- app_assoc. simpl.
          replace (trace w5) with (trace w0) by congruence. reflexivity. }
        split; [| reflexivity].
        exists user, rows, prows.
        split; [exact E |]. split; [exact Hfoods |].
        split; [exact Hplaces |]. split; [congruence |].
        rewrite Ekey in Hrows, Hprows.
        split; [exact Hrows |]. split; [exact Hprows |].
        replace (db w5) with (db w0) by congruence.
        replace (tx w5) with (tx w4) by congruence.
        rewrite Htx4. simpl. rewrite Htx3. simpl. rewrite Etx, Ekey.
        reflexivity.
  - (* the catch block *)
    intros r w' (Hs & Hr). unpack_later.
    destruct r as [[] | x].
    + unfold createOrder_post.
      destruct Hr as [(Ht & Hc & Htx) | (Hd & Htx & a & Ht & Hc)].
      * left. split; [reflexivity |]. split; [congruence |].
        split; [| exact Htx].
        replace (db w) with (db w0) by congruence.
        replace (uuidv4 w) with (uuidv4 w0) by congruence. exact Hc.
      * right. left. split; [reflexivity |]. split; [congruence |].
        split; [exact Htx |]. exists a. split; [congruence |].
        replace (db w) with (db w0) by congruence.
        eapply cause_later; [| exact Hc]. auto.
    + destruct Hr as (Hx & Hd & Hin & Hc). subst x.
      apply post_bind, post_rollback.
      * intros Hne. unfold createOrder_post; simpl.
        right. right. split; [congruence |]. split; [auto |].
        right. right. split; [reflexivity |].
        destruct Hc as [(Hf & Ht) | [(Hf & Ht) | (Hf & Ht)]].
        -- congruence.
        -- right. rewrite Ht, <- app_assoc. simpl. congruence.
        -- left. congruence.
      * intros Hnone w1 L1 Hin1. unpack_later.
        unfold createOrder_post.
        right. right. split; [congruence |]. split; [auto |].
        right. left. split; [reflexivity |].
        destruct Hc as [(Hf & Ht) | [(Hf & Ht) | (Hf & Ht)]];
          congruence.
      * intros Hnone w1 L1. apply post_next. unpack_later.
        unfold createOrder_post; simpl.
        right. left. split; [reflexivity |]. split; [congruence |].
        split; [reflexivity |]. exists (Caught DbFailure).
        split; [| simpl; split; [reflexivity | auto]].
        destruct Hc as [(Hf & Ht) | [(Hf & Ht) | (Hf & Ht)]];
          try congruence.
        replace (trace w1) with (trace w ++ [EvRollback]) by congruence.
        rewrite <- app_assoc. reflexivity.
Qed.

(** ** The run of createOrder when the storage answers every call *)

Lemma rollback_answers w :
  faults w = [] -> finished w = None ->
  transaction.rollback w =
    (Ok tt,
     with_tx no_tx (with_finished (Some FinishedRollback) (emit EvRollback w))).
Proof.
  intros Hf Hfin. unfold transaction.rollback. simpl. rewrite Hfin.
  rewrite storage_answers by exact Hf. reflexivity.
Qed.

Lemma foods_loop_resolved order fs :
  forall acc w,
    faults w = [] ->
    Forall (food_resolves (db w)) fs ->
    exists rows,
      Forall2 (detail_for (db w) (order_uuid order)) fs rows /\
      foods_loop order fs acc w =
        (Ok (Some (fold_left js_add (map quantity fs) acc)),
         stage_details rows w).
Proof.
  induction fs as [| food rest IH]; intros acc w Hf Hall.
  - exists []. split; [constructor |].
    simpl. unfold ret. rewrite stage_details_nil. reflexivity.
  - inversion Hall as [| ? ? Hfood Hrest]; subst.
    unfold food_resolves in Hfood.
    destruct (Food.lookup (db w) (OrderDetailCreateModel.name food))
      as [f |] eqn:E; [| congruence].
    set (row := {| detail_orderUuid := order_uuid order;
                   detail_quantity := quantity food;
                   detail_foodId := food_id f;
                   detail_withdrawal_order := withdrawal_order food |}).
    destruct (IH (js_add acc (quantity food)) (stage_details [row] w))
      as (rows & Hrows & Hrun); [exact Hf | exact Hrest |].
    exists (row :: rows). split.
    + constructor; [| exact Hrows].
      repeat split. exists f. split; [exact E | reflexivity].
    + simpl. unfold bind at 1. unfold Food.findOne, reading.
      rewrite storage_answers by exact Hf. simpl. rewrite E.
      unfold bind at 1. unfold OrderDetail.create, staging.
      rewrite storage_answers by exact Hf. simpl.
      fold row. change (with_tx _ w) with (stage_details [row] w).
      rewrite Hrun, stage_details_cons. reflexivity.
Qed.

Lemma places_loop_resolved order ps :
  forall acc w,
    faults w = [] ->
    Forall (place_resolves (db w)) ps ->
    exists rows,
      Forall2 (oplace_for (db w) (order_uuid order)) ps rows /\
      places_loop order ps acc w =
        (Ok (Some (fold_left js_add (map quantity_to_deliver ps) acc)),
         stage_places rows w).
Proof.
  induction ps as [| place rest IH]; intros acc w Hf Hall.
  - exists []. split; [constructor |].
    simpl. unfold ret. rewrite stage_places_nil. reflexivity.
  - inversion Hall as [| ? ? Hplace Hrest]; subst.
    unfold place_resolves in Hplace.
    destruct (Place.lookup (db w) (OrderPlaceCreateModel.name place))
      as [p |] eqn:E; [| congruence].
    set (row := {| oplace_orderUuid := order_uuid order;
                   oplace_placeId := place_id p;
                   oplace_quantity_to_deliver := quantity_to_deliver place |}).
    destruct (IH (js_add acc (quantity_to_deliver place))
                (stage_places [row] w))
      as (rows & Hrows & Hrun); [exact Hf | exact Hrest |].
    exists (row :: rows). split.
    + constructor; [| exact Hrows].
      repeat split. exists p. split; [exact E | reflexivity].
    + simpl. unfold bind at 1. unfold Place.findOne, reading.
      rewrite storage_answers by exact Hf. simpl. rewrite E.
      unfold bind at 1. unfold OrderPlace.create, staging.
      rewrite storage_answers by exact Hf. simpl.
      fold row. change (with_tx _ w) with (stage_places [row] w).
      rewrite Hrun, stage_places_cons. reflexivity.
Qed.

Lemma foods_loop_unresolved order fs :
  forall acc w,
    faults w = [] -> finished w = None ->
    Exists (food_unknown (db w)) fs ->
    foods_loop order fs acc w = (Ok None, abort (Enum PARAM_NOT_VALID) w).
Proof.
  induction fs as [| food rest IH]; intros acc w Hf Hfin Hex.
  - inversion Hex.
  - simpl. unfold bind at 1. unfold Food.findOne, reading.
    rewrite storage_answers by exact Hf. simpl.
    destruct (Food.lookup (db w) (OrderDetailCreateModel.name food))
      as [f |] eqn:E.
    + unfold bind at 1. unfold OrderDetail.create, staging.
      rewrite storage_answers by exact Hf. simpl.
      rewrite IH; [reflexivity | exact Hf | exact Hfin |].
      inversion Hex as [? ? Hhd | ? ? Htl]; subst; [| exact Htl].
      unfold food_unknown in Hhd. congruence.
    + unfold bind at 1. rewrite rollback_answers by assumption.
      reflexivity.
Qed.

Lemma places_loop_unresolved order ps :
  forall acc w,
    faults w = [] -> finished w = None ->
    Exists (place_unknown (db w)) ps ->
    places_loop order ps acc w = (Ok None, abort (Enum PARAM_NOT_VALID) w).
Proof.
  induction ps as [| place rest IH]; intros acc w Hf Hfin Hex.
  - inversion Hex.
  - simpl. unfold bind at 1. unfold Place.findOne, reading.
    rewrite storage_answers by exact Hf. simpl.
    destruct (Place.lookup (db w) (OrderPlaceCreateModel.name place))
      as [p |] eqn:E.
    + unfold bind at 1. unfold OrderPlace.create, staging.
      rewrite storage_answers by exact Hf. simpl.
      rewrite IH; [reflexivity | exact Hf | exact Hfin |].
      inversion Hex as [? ? Hhd | ? ? Htl]; subst; [| exact Htl].
      unfold place_unknown in Hhd. congruence.
    + unfold bind at 1. rewrite rollback_answers by assumption.
      reflexivity.
Qed.

Lemma foods_known_or_not d fs :
  Forall (food_resolves d) fs \/ Exists (food_unknown d) fs.
Proof.
  induction fs as [| food rest [IH | IH]].
  - left; constructor.
  - unfold food_resolves, food_unknown.
    destruct (Food.lookup d (OrderDetailCreateModel.name food)) eqn:E.
    + left. constructor; [unfold food_resolves; congruence | exact IH].
    + right. apply Exists_cons_hd. exact E.
  - right. apply Exists_cons_tl. exact IH.
Qed.

Lemma places_known_or_not d ps :
  Forall (place_resolves d) ps \/ Exists (place_unknown d) ps.
Proof.
  induction ps as [| place rest [IH | IH]].
  - left; constructor.
  - unfold place_resolves, place_unknown.
    destruct (Place.lookup d (OrderPlaceCreateModel.name place)) eqn:E.
    + left. constructor; [unfold place_resolves; congruence | exact IH].
    + right. apply Exists_cons_hd. exact E.
  - right. apply Exists_cons_tl. exact IH.
Qed.

Lemma createOrder_no_user req n u d :
  User.lookup d (req_user_id req) = None ->
  createOrder req (boot [] n u d) =
    (Ok tt, refused (Enum INTERNAL_SERVER_ERROR) n u d).
Proof.
  intros E. unfold createOrder, bind, try_catch, sequelize_transaction,
    User.findByPk, reading.
  rewrite !storage_answers by reflexivity. simpl. rewrite E. reflexivity.
Qed.

Ltac open_workflow E :=
  unfold createOrder, bind at 1, try_catch, sequelize_transaction;
  rewrite storage_answers by reflexivity; simpl;
  unfold bind at 1, User.findByPk, reading;
  rewrite storage_answers by reflexivity; simpl; rewrite E;
  unfold bind at 1, Order.create, staging;
  rewrite storage_answers by reflexivity; simpl.

Lemma createOrder_unknown_food req n u d user :
  User.lookup d (req_user_id req) = Some user ->
  Exists (food_unknown d) (req_body_foods req) ->
  createOrder req (boot [] n u d) =
    (Ok tt, refused (Enum PARAM_NOT_VALID) n u d).
Proof.
  intros E Hex. open_workflow E.
  unfold bind at 1.
  rewrite foods_loop_unresolved;
    [reflexivity | reflexivity | reflexivity | exact Hex].
Qed.

Lemma createOrder_unknown_place req n u d user :
  User.lookup d (req_user_id req) = Some user ->
  Forall (food_resolves d) (req_body_foods req) ->
  Exists (place_unknown d) (req_body_places req) ->
  createOrder req (boot [] n u d) =
    (Ok tt, refused (Enum PARAM_NOT_VALID) n u d).
Proof.
  intros E Hall Hex. open_workflow E.
  unfold bind at 1.
  match goal with
  | |- context [foods_loop ?o ?fs ?acc ?w] =>
      destruct (foods_loop_resolved o fs acc w) as (rows & _ & Hrun);
      [reflexivity | exact Hall | rewrite Hrun]
  end.
  unfold bind at 1.
  rewrite places_loop_unresolved;
    [reflexivity | reflexivity | reflexivity | exact Hex].
Qed.

Lemma createOrder_unbalanced req n u d user :
  User.lookup d (req_user_id req) = Some user ->
  Forall (food_resolves d) (req_body_foods req) ->
  Forall (place_resolves d) (req_body_places req) ->
  js_strict_neq (total_delivery (req_body_places req))
    (total_withdrawal (req_body_foods req)) = true ->
  createOrder req (boot [] n u d) =
    (Ok tt, refused (Enum QUANTITIES_DO_NOT_MATCH) n u d).
Proof.
  intros E Hfoods Hplaces Hsum. open_workflow E.
  unfold bind at 1.
  match goal with
  | |- context [foods_loop ?o ?fs ?acc ?w] =>
      destruct (foods_loop_resolved o fs acc w) as (rows & _ & Hrun);
      [reflexivity | exact Hfoods | rewrite Hrun]
  end.
  unfold bind at 1.
  match goal with
  | |- context [places_loop ?o ?ps ?acc ?w] =>
      destruct (places_loop_resolved o ps acc w) as (prows & _ & Hrun');
      [reflexivity | exact Hplaces | rewrite Hrun']
  end.
  fold (total_withdrawal (req_body_foods req)).
  fold (total_delivery (req_body_places req)).
  rewrite Hsum. reflexivity.
Qed.

Lemma createOrder_balanced req n u d user :
  User.lookup d (req_user_id req) = Some user ->
  Forall (food_resolves d) (req_body_foods req) ->
  Forall (place_resolves d) (req_body_places req) ->
  js_strict_neq (total_delivery (req_body_places req))
    (total_withdrawal (req_body_foods req)) = false ->
  exists details deliveries,
    Forall2 (detail_for d u) (req_body_foods req) details /\
    Forall2 (oplace_for d u) (req_body_places req) deliveries /\
    createOrder req (boot [] n u d) =
      (Ok tt, created (user_id user) details deliveries n u d).
Proof.
  intros E Hfoods Hplaces Hsum. open_workflow E.
  unfold bind at 1.
  match goal with
  | |- context [foods_loop ?o ?fs ?acc ?w] =>
      destruct (foods_loop_resolved o fs acc w) as (rows & Hrows & Hrun);
      [reflexivity | exact Hfoods | rewrite Hrun]
  end.
  unfold bind at 1.
  match goal with
  | |- context [places_loop ?o ?ps ?acc ?w] =>
      destruct (places_loop_resolved o ps acc w) as (prows & Hprows & Hrun');
      [reflexivity | exact Hplaces | rewrite Hrun']
  end.
  exists rows, prows. split; [exact Hrows |]. split; [exact Hprows |].
  fold (total_withdrawal (req_body_foods req)).
  fold (total_delivery (req_body_places req)).
  rewrite Hsum. reflexivity.
Qed.

(** With the storage answering, a call of [createOrder] either refuses the
    request, for the first check that fails, or commits it. *)
Lemma createOrder_served req n u d :
  (exists a,
     cause d [] req a /\
     createOrder req (boot [] n u d) = (Ok tt, refused a n u d)) \/
  (exists user details deliveries,
     commits d u req
       (db (created (user_id user) details deliveries n u d)) /\
     createOrder req (boot [] n u d) =
       (Ok tt, created (user_id user) details deliveries n u d)).
Proof.
  destruct (User.lookup d (req_user_id req)) as [user |] eqn:E.
  2:{ left. exists (Enum INTERNAL_SERVER_ERROR).
      split; [exact E | apply createOrder_no_user, E]. }
  assert (Hu : User.lookup d (req_user_id req) <> None) by congruence.
  destruct (foods_known_or_not d (req_body_foods req)) as [Hf | Hf].
  2:{ left. exists (Enum PARAM_NOT_VALID). split.
      - simpl. split; [exact Hu | left; exact Hf].
      - eapply createOrder_unknown_food; eassumption. }
  destruct (places_known_or_not d (req_body_places req)) as [Hp | Hp].
  2:{ left. exists (Enum PARAM_NOT_VALID). split.
      - simpl. split; [exact Hu | right; split; assumption].
      - eapply createOrder_unknown_place; eassumption. }
  destruct (js_strict_neq (total_delivery (req_body_places req))
              (total_withdrawal (req_body_foods req))) eqn:Hs.
  - left. exists (Enum QUANTITIES_DO_NOT_MATCH). split.
    + simpl. repeat split; assumption.
    + eapply createOrder_unbalanced; eassumption.
  - right.
    destruct (createOrder_balanced req n u d user E Hf Hp Hs)
      as (details & deliveries & Hd & Hdl & Hrun).
    exists user, details, deliveries. split; [| exact Hrun].
    exists user, details, deliveries. repeat split; assumption.
Qed.

(** ** The reads, the dispatch and the overwrite *)

Lemma getOrderStatus_reads req w :
  post (getOrderStatus req) w (fun r w' => r = Ok tt /\ db w' = db w).
Proof.
  unfold getOrderStatus. apply post_try_catch, post_bind, post_reading.
  - intros w0 L _. apply post_next. simpl. split; [reflexivity | apply L].
  - intros w0 L. destruct (Order.lookup _ _) as [order |].
    + apply post_json. simpl. split; [reflexivity | apply L].
    + apply post_next. simpl. split; [reflexivity | apply L].
Qed.

Lemma getOrderByUuid_reads req w :
  post (getOrderByUuid req) w (fun r w' => r = Ok tt /\ db w' = db w).
Proof.
  unfold getOrderByUuid. apply post_try_catch, post_bind, post_reading.
  - intros w0 L _. apply post_next. simpl. split; [reflexivity | apply L].
  - intros w0 L. destruct (Order.lookup_include _ _) as [order |].
    + apply post_json. simpl. split; [reflexivity | apply L].
    + apply post_next. simpl. split; [reflexivity | apply L].
Qed.

Lemma executeOrder_reads req w :
  post (executeOrder req) w (fun r w' => r = Ok tt /\ db w' = db w).
Proof.
  unfold executeOrder. apply post_try_catch, post_bind, post_reading.
  - intros w0 L _. apply post_next. simpl. split; [reflexivity | apply L].
  - intros w0 L. destruct (Order.lookup_include _ _) as [order |].
    + destruct (negb (OrderStatus_eqb _ _)).
      * apply post_next. simpl. split; [reflexivity | apply L].
      * apply post_bind. unfold post, executedOrderStream_observed; simpl.
        destruct (negb (observed w0)); simpl; split;
          solve [reflexivity | apply L].
    + apply post_next. simpl. split; [reflexivity | apply L].
Qed.

Lemma updateOrderStatus_writes uuid status w :
  post (updateOrderStatus uuid status) w
    (fun r w' =>
       db w' = db w \/
       (r = Ok tt /\ db w' = Order.overwrite uuid status (db w) /\
        Order.lookup (db w) uuid <> None)).
Proof.
  unfold updateOrderStatus. apply post_bind, post_reading.
  - intros w0 L _. left. apply L.
  - intros w0 L. destruct (Order.lookup (db w) uuid) as [order |] eqn:E.
    + apply post_storage.
      * intros w1 L1 _. left. rewrite (proj1 L1). apply L.
      * intros w1 L1. right. simpl. split; [reflexivity |].
        split; [| discriminate].
        rewrite (proj1 L1), (proj1 L).
        unfold Order.lookup in E. apply find_some in E.
        destruct E as [_ E]. apply String.eqb_eq in E. rewrite E.
        reflexivity.
    + apply post_throw. left. apply L.
Qed.

Lemma set_status_uuid u s o :
  order_uuid (Order.set_status u s o) = order_uuid o.
Proof. unfold Order.set_status. destruct (String.eqb _ _); reflexivity. Qed.

Lemma lookup_overwrite u s d v :
  Order.lookup (Order.overwrite u s d) v =
  option_map (Order.set_status u s) (Order.lookup d v).
Proof.
  unfold Order.lookup, Order.overwrite; simpl.
  induction (orders d) as [| o rest IH]; simpl; [reflexivity |].
  rewrite set_status_uuid.
  destruct (String.eqb (order_uuid o) v); [reflexivity | exact IH].
Qed.

Lemma lookup_persist_fresh d t u :
  Order.lookup d u = None ->
  Order.lookup (persist d t) u =
  find (fun o => String.eqb (order_uuid o) u) (tx_orders t).
Proof.
  unfold Order.lookup, persist; simpl.
  induction (orders d) as [| o rest IH]; simpl; [reflexivity |].
  destruct (String.eqb (order_uuid o) u); [discriminate | exact IH].
Qed.

(** The runs of the reads when the storage answers. *)
Lemma getOrderStatus_served req w :
  faults w = [] ->
  getOrderStatus req w =
    (Ok tt,
     match Order.lookup (db w) (req_params_uuid req) with
     | Some order =>
         emit (EvJson 200 (StatusBody (status_label (order_status order)))) w
     | None => emit (EvNext (Enum ORDER_NOT_FOUND)) w
     end).
Proof.
  intros Hf. unfold getOrderStatus, try_catch, bind, Order.findOne, reading.
  rewrite storage_answers by exact Hf. simpl.
  destruct (Order.lookup _ _); reflexivity.
Qed.

Lemma getOrderByUuid_served req w :
  faults w = [] ->
  getOrderByUuid req w =
    (Ok tt,
     match Order.lookup_include (db w) (req_params_uuid req) with
     | Some order => emit (EvJson 200 (OrderBody order)) w
     | None => emit (EvNext (Enum ORDER_NOT_FOUND)) w
     end).
Proof.
  intros Hf.
  unfold getOrderByUuid, try_catch, bind, Order.findOne_include, reading.
  rewrite storage_answers by exact Hf. simpl.
  destruct (Order.lookup_include _ _); reflexivity.
Qed.

Lemma executeOrder_served req w :
  faults w = [] ->
  executeOrder req w =
    (Ok tt,
     match Order.lookup_include (db w) (req_params_uuid req) with
     | None => emit (EvNext (Enum ORDER_NOT_FOUND)) w
     | Some order =>
         if negb (OrderStatus_eqb (order_status (json_order order)) CREATED)
         then emit (EvNext (Enum ORDER_ALREADY_STARTED)) w
         else if negb (observed w)
              then emit (EvNext (Enum WS_NOT_AVAILABLE)) w
              else emit (EvJson 200 (MessageBody "Order started succesfully"))
                     (emit (EvPublish
                              {| msg_type := EXECUTE_ORDER;
                                 msg_uuid := order_uuid (json_order order);
                                 msg_payload := order |}) w)
     end).
Proof.
  intros Hf.
  unfold executeOrder, try_catch, bind at 1, Order.findByPk_include, reading.
  rewrite storage_answers by exact Hf. simpl.
  destruct (Order.lookup_include _ _) as [order |]; [| reflexivity].
  destruct (negb (OrderStatus_eqb _ _)); [reflexivity |].
  unfold bind at 1, executedOrderStream_observed.
  destruct (negb (observed w)); reflexivity.
Qed.

Lemma updateOrderStatus_served uuid status w :
  faults w = [] ->
  updateOrderStatus uuid status w =
    match Order.lookup (db w) uuid with
    | Some _ => (Ok tt, with_db (Order.overwrite uuid status (db w)) w)
    | None => (Throw TypeError, w)
    end.
Proof.
  intros Hf. unfold updateOrderStatus, bind, Order.findByPk, reading.
  rewrite storage_answers by exact Hf. simpl.
  destruct (Order.lookup (db w) uuid) as [order |] eqn:E; [| reflexivity].
  unfold Order.update. rewrite storage_answers by exact Hf. simpl.
  unfold Order.lookup in E. apply find_some in E.
  destruct E as [_ E]. apply String.eqb_eq in E. rewrite E. reflexivity.
Qed.


(** ** Properties of order creation *)




(** C9. With an existing requester and both lists empty the two sums are 0,
    the balance check passes, and the order is persisted in status CREATED
    with no detail row and no place row. *)
Theorem createOrder_empty_lists req n u d user :
  User.lookup d (req_user_id req) = Some user ->
  req_body_foods req = [] ->
  req_body_places req = [] ->
  let w := run (createOrder req) (boot [] n u d) in
  outcome (createOrder req) (boot [] n u d) = Ok tt /\
  trace w = [EvCommit; EvJson 201 (MessageBody "Order created")] /\
  total_withdrawal (req_body_foods req) = js_zero /\
  total_delivery (req_body_places req) = js_zero /\
  orders (db w) =
    orders d ++ [{| order_uuid := u; order_status := CREATED;
                    order_userId := user_id user |}] /\
  order_details (db w) = order_details d /\
  order_places (db w) = order_places d.
Proof.
  intros E Hfoods Hplaces w.
  assert (Hf : Forall (food_resolves d) (req_body_foods req))
    by (rewrite Hfoods; constructor).
  assert (Hp : Forall (place_resolves d) (req_body_places req))
    by (rewrite Hplaces; constructor).
  assert (Hsum : js_strict_neq (total_delivery (req_body_places req))
                   (total_withdrawal (req_body_foods req)) = false)
    by (rewrite Hfoods, Hplaces; reflexivity).
  destruct (createOrder_balanced req n u d user E Hf Hp Hsum) as
    (details & deliveries & Hd & Hd' & Hrun).
  subst w. unfold run, outcome. rewrite Hrun.
  rewrite Hfoods in Hd |- *. rewrite Hplaces in Hd' |- *.
  inversion Hd; inversion Hd'; subst. simpl.
  rewrite !app_nil_r. repeat split; reflexivity.
Qed.

Lemma createOrder_empty_lists_witness :
  User.lookup pantry 1 = Some {| user_id := 1 |} /\
  orders (db (run (createOrder (request 1 [] [])) (boot [] 0 "k" pantry))) =
    [{| order_uuid := "k"; order_status := CREATED; order_userId := 1 |}].
Proof.
  split; [reflexivity |].
  exact (proj1 (proj2 (proj2 (proj2 (proj2
           (createOrder_empty_lists (request 1 [] []) 0%nat "k" pantry
              {| user_id := 1 |} eq_refl eq_refl eq_refl)))))).
Defined.





(** C3, as the code has it. When the requester exists and some food or place
    name of the request, wherever it stands in its list, does not resolve,
    the call ends with a rollback followed by PARAM_NOT_VALID; the tables are
    the ones it started with and neither the order shell nor any row created
    before the failing item stays staged. *)
Theorem createOrder_unknown_name_aborts req n u d user :
  User.lookup d (req_user_id req) = Some user ->
  (exists food, In food (req_body_foods req) /\ food_unknown d food) \/
  (exists place, In place (req_body_places req) /\ place_unknown d place) ->
  let w := run (createOrder req) (boot [] n u d) in
  outcome (createOrder req) (boot [] n u d) = Ok tt /\
  trace w = [EvRollback; EvNext (Enum PARAM_NOT_VALID)] /\
  db w = d /\ tx w = no_tx.
Proof.
  intros E Hunknown w.
  assert (Hrun : createOrder req (boot [] n u d) =
                 (Ok tt, refused (Enum PARAM_NOT_VALID) n u d)).
  { destruct (foods_known_or_not d (req_body_foods req)) as [Hf | Hf].
    - destruct Hunknown as [(food & Hin & Hno) | Hplace].
      + rewrite Forall_forall in Hf. elim (Hf food Hin). exact Hno.
      + eapply createOrder_unknown_place; try eassumption.
        apply Exists_exists. exact Hplace.
    - eapply createOrder_unknown_food; eassumption. }
  subst w. unfold run, outcome. rewrite Hrun. repeat split.
Qed.

Lemma createOrder_unknown_name_aborts_witness :
  User.lookup pantry 1 = Some {| user_id := 1 |} /\
  In (item "rice" 1) [item "bread" 1; item "rice" 1] /\
  food_unknown pantry (item "rice" 1) /\
  db (run (createOrder
             (request 1 [item "bread" 1; item "rice" 1] [drop "table1" 2]))
        (boot [] 0 "k" pantry)) = pantry.
Proof.
  assert (Hin : In (item "rice" 1) [item "bread" 1; item "rice" 1])
    by (right; left; reflexivity).
  split; [reflexivity |]. split; [exact Hin |]. split; [reflexivity |].
  exact (proj1 (proj2 (proj2
           (createOrder_unknown_name_aborts
              (request 1 [item "bread" 1; item "rice" 1] [drop "table1" 2])
              0%nat "k" pantry {| user_id := 1 |} eq_refl
              (or_introl (ex_intro _ (item "rice" 1)
                            (conj Hin eq_refl))))))).
Defined.

(** C3, as stated, fails: a request with an unknown food name sent by a
    requester that does not exist is answered INTERNAL_SERVER_ERROR, and
    PARAM_NOT_VALID is never passed to [next]. *)
Lemma createOrder_unknown_name_other_error :
  In (item "rice" 1) (req_body_foods (request 2 [item "rice" 1] [drop "table1" 1])) /\
  food_unknown pantry (item "rice" 1) /\
  trace (run (createOrder (request 2 [item "rice" 1] [drop "table1" 1]))
           (boot [] 0 "k" pantry)) =
    [EvRollback; EvNext (Enum INTERNAL_SERVER_ERROR)] /\
  ~ In (EvNext (Enum PARAM_NOT_VALID))
      (trace (run (createOrder (request 2 [item "rice" 1] [drop "table1" 1]))
                (boot [] 0 "k" pantry))).
Proof.
  split; [left; reflexivity |]. split; [reflexivity |].
  split; [reflexivity |].
  intros [H | [H | []]]; discriminate H.
Qed.

(** C4. The claim holds of every path but those in which the rollback itself
    throws, and there the code does not surface the error. A valid request
    whose commit the storage rejects: the exception is caught, the rollback
    called in the [catch] block throws in turn, because the transaction is
    already finished, and the exception leaves the handler; [next] is never
    called. Nothing has been persisted. *)
Lemma createOrder_commit_rejected_not_surfaced :
  let req := request 1 [item "bread" 2] [drop "table1" 2] in
  outcome (createOrder req) (boot commit_rejects 0 "k" pantry) =
    Throw AlreadyFinished /\
  trace (run (createOrder req) (boot commit_rejects 0 "k" pantry)) =
    [EvRollback] /\
  (forall a,
     ~ In (EvNext a)
         (trace (run (createOrder req) (boot commit_rejects 0 "k" pantry)))) /\
  db (run (createOrder req) (boot commit_rejects 0 "k" pantry)) = pantry /\
  trace (run (createOrder req) (boot [] 0 "k" pantry)) =
    [EvCommit; EvJson 201 (MessageBody "Order created")].
Proof.
  split; [reflexivity |]. split; [reflexivity |].
  split; [| split; reflexivity].
  intros a [H | []]. discriminate H.
Qed.

(** The same when a rollback awaited in the [try] block is the call that
    rejects: the rollback of the [catch] block throws and [next] is never
    called. *)
Example createOrder_rollback_rejected_not_surfaced :
  createOrder (request 1 [item "rice" 2] [drop "table1" 2])
    (boot [false; false; false; false; true] 0 "k" pantry) =
    (Throw AlreadyFinished,
     {| db := pantry;
        tx := {| tx_orders := [{| order_uuid := "k"; order_status := CREATED;
                                  order_userId := 1 |}];
                 tx_details := []; tx_places := [] |};
        observers := 0; uuidv4 := "k";
        trace := [EvRollback; EvRollback]; faults := [];
        finished := Some FinishedRollback |}).
Proof. reflexivity. Qed.

(** A storage call that rejects after the order shell is staged: the
    exception is caught, the unit of work is rolled back, and then the
    exception is handed to [next]. *)
Example createOrder_storage_rejects_midway :
  createOrder (request 1 [item "bread" 2] [drop "table1" 2])
    (boot [false; false; false; false; true] 0 "k" pantry) =
    (Ok tt, refused (Caught DbFailure) 0 "k" pantry).
Proof. reflexivity. Qed.

(** When [sequelize.transaction()] itself rejects there is no unit of work:
    the exception leaves the handler and nothing has been written. *)
Example createOrder_cannot_open :
  createOrder (request 1 [item "bread" 2] [drop "table1" 2])
    (boot [true] 0 "k" pantry) =
    (Throw DbFailure, boot [] 0 "k" pantry).
Proof. reflexivity. Qed.

(** ** Properties of the reads and of the dispatch *)

Lemma lookup_include_order d u j :
  Order.lookup_include d u = Some j -> Order.lookup d u = Some (json_order j).
Proof.
  unfold Order.lookup_include.
  destruct (Order.lookup d u); [| discriminate].
  intros H; inversion H; reflexivity.
Qed.

Lemma OrderStatus_eqb_eq a b : OrderStatus_eqb a b = true <-> a = b.
Proof. destruct a, b; simpl; split; intros H; congruence. Qed.

(** C6. For an order that exists and whose status is not CREATED,
    [executeOrder] answers ORDER_ALREADY_STARTED and nothing else: no message
    is published on the channel, whether it has subscribers or not, and the
    tables are untouched. *)
Theorem executeOrder_already_started req n u d order :
  Order.lookup d (req_params_uuid req) = Some order ->
  order_status order <> CREATED ->
  let w := run (executeOrder req) (boot [] n u d) in
  outcome (executeOrder req) (boot [] n u d) = Ok tt /\
  trace w = [EvNext (Enum ORDER_ALREADY_STARTED)] /\
  (forall m, ~ In (EvPublish m) (trace w)) /\
  db w = d.
Proof.
  intros E Hs w. subst w. unfold run, outcome.
  rewrite executeOrder_served by reflexivity. simpl.
  unfold Order.lookup_include. rewrite E. simpl.
  destruct (OrderStatus_eqb (order_status order) CREATED) eqn:Eq.
  - apply OrderStatus_eqb_eq in Eq. contradiction.
  - simpl. split; [reflexivity |]. split; [reflexivity |].
    split; [| reflexivity].
    intros m [H | []]. discriminate H.
Qed.

Lemma executeOrder_already_started_witness :
  Order.lookup running_order "k" =
    Some {| order_uuid := "k"; order_status := RUNNING; order_userId := 1 |} /\
  RUNNING <> CREATED /\
  trace (run (executeOrder (about "k")) (boot [] 3 "z" running_order)) =
    [EvNext (Enum ORDER_ALREADY_STARTED)].
Proof.
  assert (H : RUNNING <> CREATED) by discriminate.
  split; [reflexivity |]. split; [exact H |].
  exact (proj1 (proj2 (executeOrder_already_started (about "k") 3%nat "z"
                         running_order _ eq_refl H))).
Defined.

(** C7, as the code has it. [executeOrder] never writes to the tables,
    whatever the storage does. For an order that exists in status CREATED:
    with no subscriber on the channel it answers WS_NOT_AVAILABLE and
    publishes nothing; with at least one subscriber it publishes exactly one
    message, of kind EXECUTE_ORDER, carrying the order with its joined food
    and place rows, then answers 200, and the stored status is still
    CREATED. *)
Theorem executeOrder_leaves_status req fs n u d :
  db (run (executeOrder req) (boot fs n u d)) = d /\
  forall j,
    Order.lookup_include d (req_params_uuid req) = Some j ->
    order_status (json_order j) = CREATED ->
    let w := run (executeOrder req) (boot [] n u d) in
    (n = 0%nat -> trace w = [EvNext (Enum WS_NOT_AVAILABLE)]) /\
    ((0 < n)%nat ->
     trace w =
       [EvPublish {| msg_type := EXECUTE_ORDER;
                     msg_uuid := order_uuid (json_order j);
                     msg_payload := j |};
        EvJson 200 (MessageBody "Order started succesfully")]) /\
    Order.lookup (db w) (req_params_uuid req) = Some (json_order j).
Proof.
  split.
  - exact (proj2 (executeOrder_reads req (boot fs n u d))).
  - intros j E Hs w. subst w. unfold run.
    rewrite executeOrder_served by reflexivity. simpl.
    rewrite E, Hs. simpl. unfold observed. simpl.
    split; [| split].
    + intros ->. reflexivity.
    + intros Hn. destruct n as [| n']; [lia | reflexivity].
    + destruct n; simpl; apply lookup_include_order, E.
Qed.

Lemma executeOrder_leaves_status_witness :
  Order.lookup_include created_order "k" = Some created_order_json /\
  (0 < 1)%nat /\
  trace (run (executeOrder (about "k")) (boot [] 1 "z" created_order)) =
    [EvPublish {| msg_type := EXECUTE_ORDER; msg_uuid := "k";
                  msg_payload := created_order_json |};
     EvJson 200 (MessageBody "Order started succesfully")].
Proof.
  split; [reflexivity |]. split; [lia |].
  exact (proj1 (proj2 (proj2 (executeOrder_leaves_status (about "k") []
                                1%nat "z" created_order)
                         created_order_json eq_refl eq_refl))
           (le_n 1)).
Defined.

(** C7, as stated, fails: with no subscriber on the channel and an order that
    is already RUNNING, the answer is ORDER_ALREADY_STARTED and not
    WS_NOT_AVAILABLE. *)
Lemma executeOrder_unobserved_other_error :
  observed (boot [] 0 "z" running_order) = false /\
  trace (run (executeOrder (about "k")) (boot [] 0 "z" running_order)) =
    [EvNext (Enum ORDER_ALREADY_STARTED)] /\
  ~ In (EvNext (Enum WS_NOT_AVAILABLE))
      (trace (run (executeOrder (about "k")) (boot [] 0 "z" running_order))).
Proof.
  split; [reflexivity |]. split; [reflexivity |].
  intros [H | []]; discriminate H.
Qed.

Lemma lookup_uuid d v o : Order.lookup d v = Some o -> order_uuid o = v.
Proof.
  unfold Order.lookup. intros H. apply find_some in H.
  apply String.eqb_eq, H.
Qed.

(** C8. [getOrderStatus] writes nothing, whatever the storage does. For an
    order that exists it answers 200 with the label of the stored status
    (CREATED as "Created", RUNNING as "Running", COMPLETED as "Completed",
    FAILED as "Failed"); for a key that is not stored it answers
    ORDER_NOT_FOUND. Right after a creation that has succeeded (it has
    committed and answered 201) it answers "Created" for the key of the new
    order, a key that no order had before. *)
Theorem getOrderStatus_reads_label req fs n u d :
  db (run (getOrderStatus req) (boot fs n u d)) = d /\
  (forall order,
     Order.lookup d (req_params_uuid req) = Some order ->
     trace (run (getOrderStatus req) (boot [] n u d)) =
       [EvJson 200 (StatusBody (status_label (order_status order)))]) /\
  (Order.lookup d (req_params_uuid req) = None ->
   trace (run (getOrderStatus req) (boot [] n u d)) =
     [EvNext (Enum ORDER_NOT_FOUND)]) /\
  (status_label CREATED = "Created" /\ status_label RUNNING = "Running" /\
   status_label COMPLETED = "Completed" /\ status_label FAILED = "Failed") /\
  (forall creq,
     req_params_uuid req = u ->
     Order.lookup d u = None ->
     trace (run (createOrder creq) (boot [] n u d)) =
       [EvCommit; EvJson 201 (MessageBody "Order created")] ->
     trace (run (getOrderStatus req)
              (run (createOrder creq) (boot [] n u d))) =
       [EvCommit; EvJson 201 (MessageBody "Order created");
        EvJson 200 (StatusBody "Created")]).
Proof.
  split; [exact (proj2 (getOrderStatus_reads req (boot fs n u d))) |].
  split; [| split; [| split]].
  - intros order E. unfold run.
    rewrite getOrderStatus_served by reflexivity. simpl. rewrite E.
    reflexivity.
  - intros E. unfold run.
    rewrite getOrderStatus_served by reflexivity. simpl. rewrite E.
    reflexivity.
  - repeat split.
  - intros creq Hu Hfresh Hdone.
    destruct (createOrder_served creq n u d)
      as [(a & _ & Hrun) | (user & details & deliveries & _ & Hrun)].
    { unfold run in Hdone. rewrite Hrun in Hdone. discriminate Hdone. }
    unfold run at 2. rewrite Hrun. unfold run.
    rewrite getOrderStatus_served by reflexivity. simpl.
    rewrite Hu, lookup_persist_fresh by exact Hfresh. simpl.
    rewrite String.eqb_refl. reflexivity.
Qed.

Lemma getOrderStatus_reads_label_witness :
  Order.lookup running_order "k" =
    Some {| order_uuid := "k"; order_status := RUNNING; order_userId := 1 |} /\
  trace (run (getOrderStatus (about "k")) (boot [] 0 "z" running_order)) =
    [EvJson 200 (StatusBody "Running")] /\
  trace (run (getOrderStatus (about "k"))
           (run (createOrder (request 1 [item "bread" 2] [drop "table1" 2]))
              (boot [] 0 "k" pantry))) =
    [EvCommit; EvJson 201 (MessageBody "Order created");
     EvJson 200 (StatusBody "Created")].
Proof.
  split; [reflexivity |]. split.
  - exact (proj1 (proj2 (getOrderStatus_reads_label (about "k") [] 0%nat "z"
                           running_order)) _ eq_refl).
  - exact (proj2 (proj2 (proj2 (proj2
             (getOrderStatus_reads_label (about "k") [] 0%nat "k" pantry))))
             (request 1 [item "bread" 2] [drop "table1" 2])
             eq_refl eq_refl eq_refl).
Defined.

(** C10. [updateOrderStatus] needs the order to exist. For a key that is not
    stored the lookup yields no order and the dereference throws: the
    exception leaves the function and the tables are untouched. For a stored
    key the function returns normally and the order of that key now has the
    given status, whatever it is; its other fields, the other orders and the
    other tables are as before. *)
Theorem updateOrderStatus_needs_order uuid status n u d :
  let r := outcome (updateOrderStatus uuid status) (boot [] n u d) in
  let w := run (updateOrderStatus uuid status) (boot [] n u d) in
  (Order.lookup d uuid = None -> r = Throw TypeError /\ db w = d) /\
  (forall order,
     Order.lookup d uuid = Some order ->
     r = Ok tt /\
     Order.lookup (db w) uuid =
       Some {| order_uuid := order_uuid order; order_status := status;
               order_userId := order_userId order |} /\
     (forall v, v <> uuid -> Order.lookup (db w) v = Order.lookup d v) /\
     length (orders (db w)) = length (orders d) /\
     users (db w) = users d /\ foods (db w) = foods d /\
     places (db w) = places d /\
     order_details (db w) = order_details d /\
     order_places (db w) = order_places d).
Proof.
  intros r w. subst r w. unfold outcome, run.
  rewrite updateOrderStatus_served by reflexivity. simpl.
  split.
  - intros E. rewrite E. split; reflexivity.
  - intros order E. rewrite E. simpl.
    split; [reflexivity |]. split; [| split].
    + rewrite lookup_overwrite, E. simpl. unfold Order.set_status.
      rewrite (lookup_uuid d uuid order E), String.eqb_refl. reflexivity.
    + intros v Hv. rewrite lookup_overwrite.
      destruct (Order.lookup d v) as [o |] eqn:Ev; [| reflexivity].
      simpl. unfold Order.set_status.
      rewrite (lookup_uuid d v o Ev).
      destruct (String.eqb_spec v uuid); [contradiction | reflexivity].
    + split; [apply length_map |]. repeat split.
Qed.

Lemma updateOrderStatus_needs_order_witness :
  Order.lookup pantry "k" = None /\
  outcome (updateOrderStatus "k" RUNNING) (boot [] 0 "z" pantry) =
    Throw TypeError /\
  Order.lookup created_order "k" =
    Some {| order_uuid := "k"; order_status := CREATED; order_userId := 1 |} /\
  Order.lookup
    (db (run (updateOrderStatus "k" FAILED) (boot [] 0 "z" created_order)))
    "k" =
    Some {| order_uuid := "k"; order_status := FAILED; order_userId := 1 |}.
Proof.
  split; [reflexivity |]. split.
  - exact (proj1 (proj1 (updateOrderStatus_needs_order "k" RUNNING 0%nat "z"
                           pantry) eq_refl)).
  - split; [reflexivity |].
    exact (proj1 (proj2 (proj2 (updateOrderStatus_needs_order "k" FAILED
                                  0%nat "z" created_order) _ eq_refl))).
Defined.

(** ** The lifecycle along sequences of calls *)

Lemma advances_rank a b : advances a b -> (rank a <= rank b)%nat.
Proof.
  induction 1 as [a b H | a | a b c _ IH1 _ IH2].
  - destruct a, b; simpl in *; solve [discriminate | lia].
  - lia.
  - lia.
Qed.

Lemma advances_terminal a b :
  advances a b -> a = COMPLETED \/ a = FAILED -> b = a.
Proof.
  induction 1 as [a b H | a | a b c _ IH1 _ IH2]; intros Ht.
  - destruct Ht; subst; destruct b; discriminate.
  - reflexivity.
  - specialize (IH1 Ht). subst b. exact (IH2 Ht).
Qed.

(** Every call keeps the orders already stored in place, with their key and
    their requester; it leaves them as they are unless it is an
    [updateOrderStatus] on their key. *)
Lemma perform_keeps_orders c w i o :
  nth_error (orders (db w)) i = Some o ->
  exists o',
    nth_error (orders (db (perform c w))) i = Some o' /\
    order_uuid o' = order_uuid o /\
    order_userId o' = order_userId o /\
    (o' = o \/
     exists status, c = CallUpdateOrderStatus (order_uuid o) status /\
                    order_status o' = status).
Proof.
  intros Hi.
  assert (Hsame : forall w', db w' = db w ->
            exists o', nth_error (orders (db w')) i = Some o' /\
                       order_uuid o' = order_uuid o /\
                       order_userId o' = order_userId o /\
                       (o' = o \/
                        exists status,
                          c = CallUpdateOrderStatus (order_uuid o) status /\
                          order_status o' = status)).
  { intros w' E. exists o. rewrite E. auto. }
  destruct c as [k req | req | req | req | uuid status]; simpl.
  - pose proof (createOrder_ends req (with_key k w)) as H.
    unfold post, createOrder_post in H. unfold run.
    destruct (createOrder req (with_key k w)) as [r w']; simpl in *.
    destruct H as [(_ & _ & Hc & _) | [(_ & Hd & _) | (Hd & _)]].
    + destruct Hc as (user & details & deliveries & _ & _ & _ & _ & _ & _ & Hd).
      exists o. rewrite Hd. simpl.
      rewrite nth_error_app1 by (apply nth_error_Some; congruence).
      auto.
    + apply Hsame, Hd.
    + apply Hsame, Hd.
  - apply Hsame. exact (proj2 (getOrderByUuid_reads req w)).
  - apply Hsame. exact (proj2 (getOrderStatus_reads req w)).
  - apply Hsame. exact (proj2 (executeOrder_reads req w)).
  - destruct (updateOrderStatus_writes uuid status w) as [Hd | (_ & Hd & _)].
    + apply Hsame, Hd.
    + unfold run. rewrite Hd. simpl.
      rewrite nth_error_map, Hi. simpl.
      exists (Order.set_status uuid status o).
      split; [reflexivity |]. split; [apply set_status_uuid |].
      unfold Order.set_status.
      destruct (String.eqb_spec (order_uuid o) uuid) as [Eu | Eu].
      * split; [reflexivity |].
        right. exists status. rewrite Eu. split; reflexivity.
      * split; [reflexivity |]. left. reflexivity.
Qed.

(** [updateOrderStatus] on the key of a stored order, the storage answering,
    writes the status it is given into that order, whatever the status the
    order had. *)
Lemma perform_update_writes uuid status w i o :
  faults w = [] ->
  nth_error (orders (db w)) i = Some o ->
  order_uuid o = uuid ->
  nth_error (orders (db (perform (CallUpdateOrderStatus uuid status) w))) i =
    Some {| order_uuid := order_uuid o; order_status := status;
            order_userId := order_userId o |}.
Proof.
  intros Hf Hi Hu. simpl. unfold run.
  rewrite updateOrderStatus_served by exact Hf.
  destruct (Order.lookup (db w) uuid) as [found |] eqn:E.
  - simpl. rewrite nth_error_map, Hi. simpl. unfold Order.set_status.
    rewrite Hu, String.eqb_refl. reflexivity.
  - unfold Order.lookup in E.
    pose proof (find_none _ _ E o (nth_error_In _ _ Hi)) as Hn.
    simpl in Hn. rewrite Hu, String.eqb_refl in Hn. discriminate Hn.
Qed.

(** C5, as the code has it. Every call keeps a stored order in its place,
    with its key and its requester. A call of [createOrder],
    [getOrderByUuid], [getOrderStatus] or [executeOrder] leaves the order,
    and so its status, exactly as it was; a call of [updateOrderStatus]
    leaves it as it was or, on its key, gives it the status passed. On the
    key of a stored order and with the storage answering, [updateOrderStatus]
    writes the status it is given, whatever the stored one: there is no
    check. So along any sequence of calls the status advances along CREATED,
    RUNNING, then COMPLETED or FAILED, and stays put once COMPLETED or
    FAILED, in the sequences where each [updateOrderStatus] is called with a
    status one step forward of the stored one. *)
Theorem status_advances_when_updates_do cs :
  forall w,
    (forall c i o,
       nth_error (orders (db w)) i = Some o ->
       exists o',
         nth_error (orders (db (perform c w))) i = Some o' /\
         order_uuid o' = order_uuid o /\
         order_userId o' = order_userId o /\
         match c with
         | CallUpdateOrderStatus uuid status =>
             o' = o \/ (order_uuid o = uuid /\ order_status o' = status)
         | _ => o' = o
         end) /\
    (forall uuid status i o,
       faults w = [] ->
       nth_error (orders (db w)) i = Some o ->
       order_uuid o = uuid ->
       nth_error
         (orders (db (perform (CallUpdateOrderStatus uuid status) w))) i =
         Some {| order_uuid := order_uuid o; order_status := status;
                 order_userId := order_userId o |}) /\
    (disciplined cs w ->
     forall i o,
       nth_error (orders (db w)) i = Some o ->
       exists o',
         nth_error (orders (db (session cs w))) i = Some o' /\
         order_uuid o' = order_uuid o /\
         advances (order_status o) (order_status o') /\
         (order_status o = COMPLETED \/ order_status o = FAILED ->
          order_status o' = order_status o)).
Proof.
  intros w. split; [| split].
  - intros c i o Hi.
    destruct (perform_keeps_orders c w i o Hi)
      as (o' & Hi' & Hu & Hr & Hs).
    exists o'. split; [exact Hi' |]. split; [exact Hu |].
    split; [exact Hr |].
    destruct c as [k req | req | req | req | uuid status];
      try (destruct Hs as [Hs | (st & Hc & _)];
           [exact Hs | discriminate Hc]).
    destruct Hs as [Hs | (st & Hc & Hst)]; [left; exact Hs |].
    right. injection Hc as -> ->. split; [reflexivity | exact Hst].
  - intros uuid status i o. apply perform_update_writes.
  - revert w.
    induction cs as [| c rest IH]; intros w Hdis i o Hi.
    + exists o. simpl. split; [exact Hi |]. split; [reflexivity |].
      split; [apply rt_refl | reflexivity].
    + destruct Hdis as [Hstep Hrest].
      destruct (perform_keeps_orders c w i o Hi)
        as (o1 & Hi1 & Hu1 & _ & Hs1).
      assert (Hadv : advances (order_status o) (order_status o1)).
      { destruct Hs1 as [-> | (status & -> & Hs)]; [apply rt_refl |].
        apply rt_step. rewrite Hs. apply Hstep; [| reflexivity].
        eapply nth_error_In, Hi. }
      destruct (IH (perform c w) Hrest i o1 Hi1) as (o' & Hi' & Hu' & Ha' & _).
      exists o'. simpl. split; [exact Hi' |]. split; [congruence |].
      assert (Hall : advances (order_status o) (order_status o'))
        by (eapply rt_trans; eassumption).
      split; [exact Hall |].
      intros Ht. apply (advances_terminal _ _ Hall Ht).
Qed.

Lemma status_advances_when_updates_do_witness :
  disciplined [CallExecuteOrder (about "k");
               CallUpdateOrderStatus "k" RUNNING;
               CallUpdateOrderStatus "k" FAILED]
    (boot [] 1 "z" created_order) /\
  nth_error
    (orders (db (perform (CallExecuteOrder (about "k"))
                   (boot [] 1 "z" created_order)))) 0 =
    Some {| order_uuid := "k"; order_status := CREATED; order_userId := 1 |} /\
  nth_error
    (orders (db (perform (CallUpdateOrderStatus "k" COMPLETED)
                   (boot [] 1 "z" created_order)))) 0 =
    Some {| order_uuid := "k"; order_status := COMPLETED;
            order_userId := 1 |} /\
  exists o',
    nth_error
      (orders
         (db (session [CallExecuteOrder (about "k");
                       CallUpdateOrderStatus "k" RUNNING;
                       CallUpdateOrderStatus "k" FAILED]
                (boot [] 1 "z" created_order)))) 0 = Some o' /\
    order_uuid o' = "k" /\
    advances CREATED (order_status o') /\
    (CREATED = COMPLETED \/ CREATED = FAILED -> order_status o' = CREATED).
Proof.
  assert (H : disciplined [CallExecuteOrder (about "k");
                           CallUpdateOrderStatus "k" RUNNING;
                           CallUpdateOrderStatus "k" FAILED]
                (boot [] 1 "z" created_order)).
  { simpl. split; [exact I |]. split.
    - intros o [<- | []] _. reflexivity.
    - split; [| exact I]. intros o [<- | []] _. reflexivity. }
  split; [exact H |].
  split; [reflexivity |].
  split.
  - exact (proj1 (proj2 (status_advances_when_updates_do
                           [] (boot [] 1 "z" created_order)))
             "k" COMPLETED 0%nat
             {| order_uuid := "k"; order_status := CREATED;
                order_userId := 1 |}
             eq_refl eq_refl eq_refl).
  - exact (proj2 (proj2 (status_advances_when_updates_do _ _)) H 0%nat
             {| order_uuid := "k"; order_status := CREATED; order_userId := 1 |}
             eq_refl).
Defined.

(** C5, as stated, fails: after a creation and two updates have brought the
    order to COMPLETED, one more call of [updateOrderStatus] sets it back to
    CREATED, which no number of steps forward reaches from COMPLETED. *)
Lemma status_set_backward :
  let w := session lifecycle (boot [] 1 "" pantry) in
  Order.lookup (db w) "k" =
    Some {| order_uuid := "k"; order_status := COMPLETED;
            order_userId := 1 |} /\
  Order.lookup (db (perform (CallUpdateOrderStatus "k" CREATED) w)) "k" =
    Some {| order_uuid := "k"; order_status := CREATED; order_userId := 1 |} /\
  ~ advances COMPLETED CREATED.
Proof.
  split; [reflexivity |]. split; [reflexivity |].
  intros H. apply advances_rank in H. simpl in H. lia.
Qed.


(** ** Further properties of order creation *)

(** X1. Under every schedule of rejecting storage calls, [createOrder] ends
    in one of two ways. Either it has committed and answered 201, and then
    the requester is stored, every name of the request resolves, the two sums
    as the code accumulates them in binary64 are equal for [!==], and the
    tables have gained exactly the order, in status
    CREATED under the key drawn, and one line item per item of the request.
    Or no commit took place and the tables are the ones the call started
    with. *)
Lemma escaped_no_commit (r : Outcome unit) (t : list Event) :
  (r = Throw DbFailure /\ t = []) \/
  (r = Throw DbFailure /\ t = [EvRollback]) \/
  (r = Throw AlreadyFinished /\
   (t = [EvRollback] \/ t = [EvRollback; EvRollback])) ->
  ~ In EvCommit t /\ (forall a, ~ In (EvNext a) t) /\
  (forall c b, ~ In (EvJson c b) t) /\ r <> Ok tt.
Proof.
  intros [(-> & ->) | [(-> & ->) | (-> & [-> | ->])]];
    (split; [| split; [| split]]);
    try discriminate; simpl; intuition discriminate.
Qed.

Theorem createOrder_commits_whole_valid_order req fs n u d :
  let w := run (createOrder req) (boot fs n u d) in
  (trace w = [EvCommit; EvJson 201 (MessageBody "Order created")] /\
   commits d u req (db w)) \/
  (db w = d /\ ~ In EvCommit (trace w)).
Proof.
  intros w. subst w. unfold run.
  pose proof (createOrder_ends req (boot fs n u d)) as H.
  unfold post, createOrder_post in H.
  destruct (createOrder req (boot fs n u d)) as [r w']. simpl in *.
  destruct H as [(_ & Ht & Hc & _) | [(_ & Hd & _ & a & Ht & _) | (Hd & _ & Ht)]].
  - left. split; assumption.
  - right. split; [exact Hd |]. rewrite Ht.
    intros [H | [H | []]]; discriminate H.
  - right. split; [exact Hd |]. apply escaped_no_commit in Ht.
    exact (proj1 Ht).
Qed.

Lemma unknown_not_resolved_food d fs :
  Exists (food_unknown d) fs -> ~ Forall (food_resolves d) fs.
Proof.
  intros Hex Hall. apply Exists_exists in Hex.
  destruct Hex as (food & Hin & Hno).
  rewrite Forall_forall in Hall. exact (Hall food Hin Hno).
Qed.

Lemma unknown_not_resolved_place d ps :
  Exists (place_unknown d) ps -> ~ Forall (place_resolves d) ps.
Proof.
  intros Hex Hall. apply Exists_exists in Hex.
  destruct Hex as (place & Hin & Hno).
  rewrite Forall_forall in Hall. exact (Hall place Hin Hno).
Qed.

(** X2. A request that fails one of the checks of [createOrder] (the
    requester is not stored, a food or place name does not resolve, or the
    two sums as the code accumulates them in binary64 differ for [!==])
    leaves the tables as they are under every schedule of
    rejecting storage calls: no failure of the storage lets such an order
    through. *)
Theorem createOrder_never_persists_invalid req fs n u d :
  User.lookup d (req_user_id req) = None \/
  Exists (food_unknown d) (req_body_foods req) \/
  Exists (place_unknown d) (req_body_places req) \/
  js_strict_neq (total_delivery (req_body_places req))
    (total_withdrawal (req_body_foods req)) = true ->
  let w := run (createOrder req) (boot fs n u d) in
  db w = d /\ ~ In EvCommit (trace w).
Proof.
  intros Hbad w. subst w. unfold run.
  pose proof (createOrder_ends req (boot fs n u d)) as H.
  unfold post, createOrder_post in H.
  destruct (createOrder req (boot fs n u d)) as [r w']. simpl in *.
  destruct H as [(_ & _ & Hc & _) | [(_ & Hd & _ & a & Ht & _) | (Hd & _ & Ht)]].
  - exfalso.
    destruct Hc as (user & details & deliveries & E & Hf & Hp & Hsum & _).
    destruct Hbad as [Hu | [Hfood | [Hplace | Hne]]].
    + congruence.
    + exact (unknown_not_resolved_food _ _ Hfood Hf).
    + exact (unknown_not_resolved_place _ _ Hplace Hp).
    + congruence.
  - split; [exact Hd |]. rewrite Ht.
    intros [H | [H | []]]; discriminate H.
  - split; [exact Hd |]. apply escaped_no_commit in Ht. exact (proj1 Ht).
Qed.

Lemma createOrder_never_persists_invalid_witness :
  js_strict_neq (total_delivery [drop "table1" 2])
    (total_withdrawal [item "bread" 3]) = true /\
  db (run (createOrder (request 1 [item "bread" 3] [drop "table1" 2]))
        (boot [false; false; false; true] 0 "k" pantry)) = pantry.
Proof.
  assert (H : js_strict_neq (total_delivery [drop "table1" 2])
                (total_withdrawal [item "bread" 3]) = true)
    by reflexivity.
  split; [exact H |].
  exact (proj1 (createOrder_never_persists_invalid
                  (request 1 [item "bread" 3] [drop "table1" 2])
                  [false; false; false; true] 0%nat "k" pantry
                  (or_intror (or_intror (or_intror H))))).
Defined.

(** X20. How [createOrder] ends under every schedule of rejecting storage
    calls. It has committed one order made of the request and answered 201.
    Or it has called the rollback and then [next], once, nothing being
    persisted nor left staged, and the error passed has its cause:
    INTERNAL_SERVER_ERROR for a requester that is not stored,
    PARAM_NOT_VALID for a first name that does not resolve,
    QUANTITIES_DO_NOT_MATCH for sums that differ once every name has
    resolved, and the exception caught for a storage call that has rejected.
    Or an exception leaves the handler, nothing being persisted and [next]
    never called: the transaction could not be opened, or a rollback has
    thrown, after a rejection of the storage. *)
Theorem createOrder_ends_in_three_ways req fs n u d :
  let r := outcome (createOrder req) (boot fs n u d) in
  let w := run (createOrder req) (boot fs n u d) in
  (r = Ok tt /\ trace w = created_reply /\ commits d u req (db w) /\
   tx w = no_tx) \/
  (r = Ok tt /\ db w = d /\ tx w = no_tx /\
   exists a, trace w = [EvRollback; EvNext a] /\ cause d fs req a) \/
  (db w = d /\ In true fs /\ (forall a, ~ In (EvNext a) (trace w)) /\
   ((r = Throw DbFailure /\ trace w = []) \/
    (r = Throw DbFailure /\ trace w = [EvRollback]) \/
    (r = Throw AlreadyFinished /\
     (trace w = [EvRollback] \/ trace w = [EvRollback; EvRollback])))).
Proof.
  intros r w. subst r w. unfold outcome, run.
  pose proof (createOrder_ends req (boot fs n u d)) as H.
  unfold post, createOrder_post in H.
  destruct (createOrder req (boot fs n u d)) as [r w']. simpl in *.
  destruct H as [H | [H | (Hd & Hf & Ht)]].
  - left. exact H.
  - right. left. exact H.
  - right. right. split; [exact Hd |]. split; [exact Hf |].
    split; [| exact Ht].
    exact (proj1 (proj2 (escaped_no_commit _ _ Ht))).
Qed.

(** X21. Quantities are binary64 numbers and the two sums are compared by
    [!==]: an order of 0.1 and 0.2 of a food against 0.3 for a place is
    refused with QUANTITIES_DO_NOT_MATCH, the sum of the numbers nearest to
    0.1 and 0.2 not being the number nearest to 0.3. *)
Theorem createOrder_tenths_refused :
  js_add tenth fifth <> three_tenths /\
  trace (run (createOrder
                (request 1
                   [{| OrderDetailCreateModel.name := "bread";
                       quantity := tenth; withdrawal_order := 1 |};
                    {| OrderDetailCreateModel.name := "bread";
                       quantity := fifth; withdrawal_order := 2 |}]
                   [{| OrderPlaceCreateModel.name := "table1";
                       quantity_to_deliver := three_tenths |}]))
           (boot [] 0 "k" pantry)) =
    [EvRollback; EvNext (Enum QUANTITIES_DO_NOT_MATCH)].
Proof.
  split; [| vm_compute; reflexivity].
  vm_compute. discriminate.
Qed.

(** ** The tables along the calls served *)

Lemma getAllOrders_ends req w :
  post (getAllOrders req) w
    (fun r w' =>
       db w' = db w /\
       ((r = Ok (Some (Order_all_include (db w))) /\ trace w' = trace w) \/
        (r = Ok None /\
         trace w' = trace w ++ [EvNext (Caught DbFailure)]))).
Proof.
  unfold getAllOrders. apply post_try_catch, post_bind, post_reading.
  - intros w0 L _. apply post_bind, post_next, post_ret. simpl.
    split; [apply L |]. right. split; [reflexivity |].
    destruct L as (_ & _ & _ & _ & Et & _). rewrite Et. reflexivity.
  - intros w0 L. apply post_ret. split; [apply L |].
    left. split; [reflexivity | apply L].
Qed.

Lemma serve_db_step s w : db_step (db w) (db (serve s w)).
Proof.
  destruct s as [[k req | req | req | req | uuid status] | req]; simpl.
  - pose proof (createOrder_ends req (with_key k w)) as H.
    unfold post, createOrder_post in H. unfold run.
    destruct (createOrder req (with_key k w)) as [r w']. simpl in *.
    destruct H as [(_ & _ & Hc & _) | [(_ & Hd & _) | (Hd & _)]].
    + right. left. exists k, req. exact Hc.
    + left. exact Hd.
    + left. exact Hd.
  - left. exact (proj2 (getOrderByUuid_reads req w)).
  - left. exact (proj2 (getOrderStatus_reads req w)).
  - left. exact (proj2 (executeOrder_reads req w)).
  - destruct (updateOrderStatus_writes uuid status w)
      as [Hd | (_ & Hd & Hl)].
    + left. exact Hd.
    + right. right. exists uuid, status. split; assumption.
  - left. exact (proj1 (getAllOrders_ends req w)).
Qed.

(** What every step of the tables keeps is kept by every sequence of calls. *)
Lemma serve_all_keeps (I : Db -> Prop) :
  (forall d d', db_step d d' -> I d -> I d') ->
  forall ss w, I (db w) -> I (db (serve_all ss w)).
Proof.
  intros Hstep. induction ss as [| s rest IH]; intros w Hw; simpl.
  - exact Hw.
  - apply IH. exact (Hstep _ _ (serve_db_step s w) Hw).
Qed.

Lemma Forall2_right {A B} (R : A -> B -> Prop) (P : B -> Prop) l l' :
  Forall2 R l l' -> (forall x y, R x y -> P y) -> Forall P l'.
Proof.
  induction 1 as [| x y l l' Hxy _ IH]; intros HP; constructor.
  - exact (HP x y Hxy).
  - exact (IH HP).
Qed.

Lemma set_status_owner u s o :
  order_userId (Order.set_status u s o) = order_userId o.
Proof. unfold Order.set_status. destruct (String.eqb _ _); reflexivity. Qed.

Lemma db_step_integral d d' : db_step d d' -> integral d -> integral d'.
Proof.
  intros [-> | [(u & req & Hc) | (u & s & _ & ->)]] (Hd & Hp & Ho).
  - repeat split; assumption.
  - destruct Hc as (user & details & deliveries & E & _ & _ & _ & Hfd & Hfp
                    & ->).
    unfold integral; simpl. repeat split.
    + apply Forall_app. split.
      * eapply Forall_impl; [| exact Hd]. simpl.
        intros r (Hf & o & Hin & Hk). split; [exact Hf |].
        exists o. split; [apply in_or_app; left; exact Hin | exact Hk].
      * eapply Forall2_right; [exact Hfd |].
        intros food r (Hk & _ & _ & f & Hl & Hid). split.
        -- exists f. split; [| symmetry; exact Hid].
           unfold Food.lookup in Hl. apply find_some in Hl. apply Hl.
        -- eexists. split; [apply in_or_app; right; left; reflexivity |].
           simpl. symmetry. exact Hk.
    + apply Forall_app. split.
      * eapply Forall_impl; [| exact Hp]. simpl.
        intros r (Hf & o & Hin & Hk). split; [exact Hf |].
        exists o. split; [apply in_or_app; left; exact Hin | exact Hk].
      * eapply Forall2_right; [exact Hfp |].
        intros place r (Hk & _ & p & Hl & Hid). split.
        -- exists p. split; [| symmetry; exact Hid].
           unfold Place.lookup in Hl. apply find_some in Hl. apply Hl.
        -- eexists. split; [apply in_or_app; right; left; reflexivity |].
           simpl. symmetry. exact Hk.
    + apply Forall_app. split; [exact Ho |].
      constructor; [| constructor]. exists user. split; [| reflexivity].
      unfold User.lookup in E. apply find_some in E. apply E.
  - unfold integral; simpl. repeat split.
    + eapply Forall_impl; [| exact Hd]. simpl.
      intros r (Hf & o & Hin & Hk). split; [exact Hf |].
      exists (Order.set_status u s o).
      split; [apply in_map; exact Hin | rewrite set_status_uuid; exact Hk].
    + eapply Forall_impl; [| exact Hp]. simpl.
      intros r (Hf & o & Hin & Hk). split; [exact Hf |].
      exists (Order.set_status u s o).
      split; [apply in_map; exact Hin | rewrite set_status_uuid; exact Hk].
    + apply Forall_map. eapply Forall_impl; [| exact Ho]. simpl.
      intros o Hu. rewrite set_status_owner. exact Hu.
Qed.

(** X4. If every stored line item points to a stored order and to a stored
    catalog entry, and every order to a stored user, the same holds after any
    sequence of calls of the controller, under every schedule of rejecting
    storage calls: no call leaves a line item without its order, its food or
    its place. *)
Theorem references_kept ss w :
  integral (db w) -> integral (db (serve_all ss w)).
Proof. apply serve_all_keeps. exact db_step_integral. Qed.

Lemma references_kept_witness :
  integral (db (boot [] 0 "" created_order)) /\
  integral
    (db (serve_all
           [ServeCall (CallCreateOrder "m"
                         (request 1 [item "bread" 2] [drop "table1" 2]));
            ServeCall (CallUpdateOrderStatus "k" RUNNING)]
           (boot [] 0 "" created_order))).
Proof.
  assert (H : integral (db (boot [] 0 "" created_order))).
  { unfold integral; simpl. repeat split; repeat constructor.
    - eexists. split; [left; reflexivity | reflexivity].
    - eexists. split; [left; reflexivity | reflexivity].
    - eexists. split; [left; reflexivity | reflexivity].
    - eexists. split; [left; reflexivity | reflexivity].
    - eexists. split; [left; reflexivity | reflexivity]. }
  split; [exact H |].
  exact (references_kept _ _ H).
Defined.

Lemma db_step_extends d0 d d' : db_step d d' -> extends d0 d -> extends d0 d'.
Proof.
  intros [-> | [(u & req & Hc) | (u & s & _ & ->)]]
    (Hu & Hf & Hp & (md & Hd) & (mp & Hop) & (mo & Ho)).
  - unfold extends. eauto 10.
  - destruct Hc as (user & details & deliveries & _ & _ & _ & _ & _ & _ & ->).
    unfold extends; simpl. repeat split; try assumption.
    + exists (md ++ details). rewrite Hd, app_assoc. reflexivity.
    + exists (mp ++ deliveries). rewrite Hop, app_assoc. reflexivity.
    + eexists. rewrite map_app, Ho, <- app_assoc. reflexivity.
  - unfold extends; simpl. repeat split; try assumption.
    + exists md. exact Hd.
    + exists mp. exact Hop.
    + exists mo. rewrite map_map, <- Ho. apply map_ext.
      intros o. unfold identity.
      rewrite set_status_uuid, set_status_owner. reflexivity.
Qed.

(** X5. Along any sequence of calls of the controller, under every schedule
    of rejecting storage calls, the users and the catalog stay as they are,
    no line item is removed or altered, and no order is removed, moved, given
    another key or another owner: the tables only gain rows, and the status of
    an order is all that is ever rewritten. *)
Theorem tables_only_grow ss w :
  let d := db w in
  let d' := db (serve_all ss w) in
  users d' = users d /\ foods d' = foods d /\ places d' = places d /\
  (exists more, order_details d' = order_details d ++ more) /\
  (exists more, order_places d' = order_places d ++ more) /\
  (exists more, map identity (orders d') = map identity (orders d) ++ more).
Proof.
  intros d d'. subst d d'.
  apply (serve_all_keeps (extends (db w))).
  - intros d d'. apply db_step_extends.
  - unfold extends. repeat split; exists []; rewrite app_nil_r; reflexivity.
Qed.

(** ** The joins and the reads of an order *)

Lemma include_foods_joined d u fr :
  In fr (Order.include_foods d u) -> food_joined d u fr.
Proof.
  unfold Order.include_foods. intros H. apply in_flat_map in H.
  destruct H as (r & Hr & H).
  destruct (String.eqb_spec (detail_orderUuid r) u) as [Hk | Hk];
    [| destruct H].
  destruct (find _ (foods d)) as [f |] eqn:E; [| destruct H].
  destruct H as [<- | []]. apply find_some in E. destruct E as [Hin Hid].
  apply Z.eqb_eq in Hid. repeat split; assumption.
Qed.

Lemma include_places_joined d u pr :
  In pr (Order.include_places d u) -> place_joined d u pr.
Proof.
  unfold Order.include_places. intros H. apply in_flat_map in H.
  destruct H as (r & Hr & H).
  destruct (String.eqb_spec (oplace_orderUuid r) u) as [Hk | Hk];
    [| destruct H].
  destruct (find _ (places d)) as [p |] eqn:E; [| destruct H].
  destruct H as [<- | []]. apply find_some in E. destruct E as [Hin Hid].
  apply Z.eqb_eq in Hid. repeat split; assumption.
Qed.

(** With the references in place no line item is lost in the join. *)
Lemma include_foods_all d u :
  integral d ->
  map snd (Order.include_foods d u) =
  filter (fun r => String.eqb (detail_orderUuid r) u) (order_details d).
Proof.
  intros (Hd & _). unfold Order.include_foods.
  induction Hd as [| r rows ((f & Hin & Hid) & _) _ IH]; [reflexivity |].
  simpl. rewrite map_app, IH.
  destruct (String.eqb (detail_orderUuid r) u); [| reflexivity].
  destruct (find (fun f0 => food_id f0 =? detail_foodId r) (foods d))
    as [f' |] eqn:E; [reflexivity |].
  exfalso. apply (find_none _ _ E) in Hin. apply Z.eqb_neq in Hin. exact (Hin Hid).
Qed.

Lemma include_places_all d u :
  integral d ->
  map snd (Order.include_places d u) =
  filter (fun r => String.eqb (oplace_orderUuid r) u) (order_places d).
Proof.
  intros (_ & Hp & _). unfold Order.include_places.
  induction Hp as [| r rows ((p & Hin & Hid) & _) _ IH]; [reflexivity |].
  simpl. rewrite map_app, IH.
  destruct (String.eqb (oplace_orderUuid r) u); [| reflexivity].
  destruct (find (fun p0 => place_id p0 =? oplace_placeId r) (places d))
    as [p' |] eqn:E; [reflexivity |].
  exfalso. apply (find_none _ _ E) in Hin. apply Z.eqb_neq in Hin. exact (Hin Hid).
Qed.

Lemma getOrderByUuid_ends req w :
  post (getOrderByUuid req) w
    (fun r w' =>
       r = Ok tt /\ db w' = db w /\
       (trace w' = trace w ++ [EvNext (Caught DbFailure)] \/
        trace w' =
          trace w ++
          [match Order.lookup_include (db w) (req_params_uuid req) with
           | Some order => EvJson 200 (OrderBody order)
           | None => EvNext (Enum ORDER_NOT_FOUND)
           end])).
Proof.
  unfold getOrderByUuid. apply post_try_catch, post_bind, post_reading.
  - intros w0 L _. apply post_next. simpl.
    split; [reflexivity |]. split; [apply L |]. left.
    destruct L as (_ & _ & _ & _ & -> & _). reflexivity.
  - intros w0 L. destruct (Order.lookup_include _ _) as [order |].
    + apply post_json. simpl. split; [reflexivity |]. split; [apply L |].
      right. destruct L as (_ & _ & _ & _ & -> & _). reflexivity.
    + apply post_next. simpl. split; [reflexivity |]. split; [apply L |].
      right. destruct L as (_ & _ & _ & _ & -> & _). reflexivity.
Qed.

(** X6. [getOrderByUuid] never writes and never throws, and answers exactly
    once: with the caught exception when the storage rejects the query,
    with ORDER_NOT_FOUND when no order has the key, and otherwise with 200
    and the first stored order of that key. Every row joined to the order
    answered is a stored line item of that key, paired with a stored catalog
    entry of the id it refers to; and when every stored line item points to
    a stored catalog entry, the order answered carries all the line items
    of its key. *)
Theorem getOrderByUuid_answers req fs n u d :
  let w := run (getOrderByUuid req) (boot fs n u d) in
  outcome (getOrderByUuid req) (boot fs n u d) = Ok tt /\
  db w = d /\
  (trace w = [EvNext (Caught DbFailure)] \/
   (Order.lookup d (req_params_uuid req) = None /\
    trace w = [EvNext (Enum ORDER_NOT_FOUND)]) \/
   (exists j,
      trace w = [EvJson 200 (OrderBody j)] /\
      Order.lookup d (req_params_uuid req) = Some (json_order j) /\
      order_uuid (json_order j) = req_params_uuid req /\
      Forall (food_joined d (req_params_uuid req)) (json_foods j) /\
      Forall (place_joined d (req_params_uuid req)) (json_places j) /\
      (integral d ->
       map snd (json_foods j) =
         filter (fun r => String.eqb (detail_orderUuid r) (req_params_uuid req))
           (order_details d) /\
       map snd (json_places j) =
         filter (fun r => String.eqb (oplace_orderUuid r) (req_params_uuid req))
           (order_places d)))) /\
  (fs = [] -> trace w <> [EvNext (Caught DbFailure)]).
Proof.
  intros w. subst w.
  pose proof (getOrderByUuid_ends req (boot fs n u d)) as H.
  unfold post in H. unfold run, outcome.
  destruct H as (Hr & Hd & Ht). simpl in Hd, Ht.
  split; [exact Hr |]. split; [exact Hd |]. split.
  - destruct Ht as [Ht | Ht]; [left; exact Ht |]. right.
    unfold Order.lookup_include in Ht.
    destruct (Order.lookup d (req_params_uuid req)) as [o |] eqn:E.
    + right. eexists. split; [exact Ht |]. simpl.
      split; [reflexivity |].
      split; [exact (lookup_uuid _ _ _ E) |].
      split; [apply Forall_forall; intros fr; apply include_foods_joined |].
      split; [apply Forall_forall; intros pr; apply include_places_joined |].
      intros Hi. split;
        [apply include_foods_all | apply include_places_all]; exact Hi.
    + left. split; [reflexivity | exact Ht].
  - intros ->. rewrite getOrderByUuid_served by reflexivity. simpl.
    destruct (Order.lookup_include d (req_params_uuid req)); discriminate.
Qed.

Lemma getOrderByUuid_answers_witness :
  integral created_order /\
  exists j,
    trace (run (getOrderByUuid (about "k")) (boot [] 0 "z" created_order)) =
      [EvJson 200 (OrderBody j)] /\
    map snd (json_foods j) = order_details created_order.
Proof.
  assert (Hi : integral created_order).
  { unfold integral; simpl. repeat split; repeat constructor.
    - eexists. split; [left; reflexivity | reflexivity].
    - eexists. split; [left; reflexivity | reflexivity].
    - eexists. split; [left; reflexivity | reflexivity].
    - eexists. split; [left; reflexivity | reflexivity].
    - eexists. split; [left; reflexivity | reflexivity]. }
  split; [exact Hi |].
  destruct (getOrderByUuid_answers (about "k") [] 0%nat "z" created_order)
    as (_ & _ & [Ht | [(Hl & _) | (j & Ht & _ & _ & _ & _ & Hall)]] & Hno).
  - elim (Hno eq_refl Ht).
  - discriminate Hl.
  - exists j. split; [exact Ht |]. exact (proj1 (Hall Hi)).
Defined.

Lemma fresh_key_details d u :
  integral d -> Order.lookup d u = None ->
  filter (fun r => String.eqb (detail_orderUuid r) u) (order_details d) = [] /\
  filter (fun r => String.eqb (oplace_orderUuid r) u) (order_places d) = [].
Proof.
  intros (Hd & Hp & _) Hfresh. unfold Order.lookup in Hfresh. split.
  - induction Hd as [| r rows (_ & o & Hin & Hk) _ IH]; [reflexivity |].
    simpl. rewrite IH.
    destruct (String.eqb_spec (detail_orderUuid r) u) as [E | E];
      [| reflexivity].
    apply (find_none _ _ Hfresh) in Hin. apply String.eqb_neq in Hin.
    congruence.
  - induction Hp as [| r rows (_ & o & Hin & Hk) _ IH]; [reflexivity |].
    simpl. rewrite IH.
    destruct (String.eqb_spec (oplace_orderUuid r) u) as [E | E];
      [| reflexivity].
    apply (find_none _ _ Hfresh) in Hin. apply String.eqb_neq in Hin.
    congruence.
Qed.

Lemma filter_own_details d u fs rows :
  Forall2 (detail_for d u) fs rows ->
  filter (fun r => String.eqb (detail_orderUuid r) u) rows = rows.
Proof.
  induction 1 as [| food r fs rows (Hk & _) _ IH]; [reflexivity |].
  simpl. rewrite Hk, String.eqb_refl, IH. reflexivity.
Qed.

Lemma filter_own_deliveries d u ps rows :
  Forall2 (oplace_for d u) ps rows ->
  filter (fun r => String.eqb (oplace_orderUuid r) u) rows = rows.
Proof.
  induction 1 as [| place r ps rows (Hk & _) _ IH]; [reflexivity |].
  simpl. rewrite Hk, String.eqb_refl, IH. reflexivity.
Qed.

(** X7. Round trip. When the references of the stored rows are in place and
    the key drawn is one that no stored order has, a creation whose requester
    is stored, whose names resolve and whose two sums, as the code
    accumulates them in binary64, are equal for [!==], followed by
    [getOrderByUuid] on that key, answers 200 with the new order, in status
    CREATED and owned by the requester, carrying exactly the line items of
    the request: one food row per food item and one place row per place
    item, in the order of the request, each with the requested quantity and
    the catalog entry its name resolves to. *)
Theorem createOrder_then_getOrderByUuid creq req n u d user :
  integral d ->
  Order.lookup d u = None ->
  req_params_uuid req = u ->
  User.lookup d (req_user_id creq) = Some user ->
  Forall (food_resolves d) (req_body_foods creq) ->
  Forall (place_resolves d) (req_body_places creq) ->
  js_strict_neq (total_delivery (req_body_places creq))
    (total_withdrawal (req_body_foods creq)) = false ->
  exists j,
    trace (run (getOrderByUuid req) (run (createOrder creq) (boot [] n u d))) =
      [EvCommit; EvJson 201 (MessageBody "Order created");
       EvJson 200 (OrderBody j)] /\
    json_order j = {| order_uuid := u; order_status := CREATED;
                      order_userId := user_id user |} /\
    Forall2 (detail_for d u) (req_body_foods creq) (map snd (json_foods j)) /\
    Forall2 (oplace_for d u) (req_body_places creq) (map snd (json_places j)) /\
    Forall (fun fr => food_id (fst fr) = detail_foodId (snd fr))
      (json_foods j) /\
    Forall (fun pr => place_id (fst pr) = oplace_placeId (snd pr))
      (json_places j).
Proof.
  intros Hi Hfresh Hu E Hf Hp Hsum.
  destruct (createOrder_balanced creq n u d user E Hf Hp Hsum)
    as (details & deliveries & Hd & Hdl & Hrun).
  assert (Hc : commits d u creq (db (created (user_id user) details deliveries n u d))).
  { exists user, details, deliveries. repeat split; assumption. }
  assert (Hi' : integral (db (created (user_id user) details deliveries n u d))).
  { eapply db_step_integral; [| exact Hi]. right. left. eauto. }
  unfold run at 2. rewrite Hrun. unfold run.
  rewrite getOrderByUuid_served by reflexivity.
  unfold created in *. simpl (db _) in *.
  unfold Order.lookup_include. rewrite Hu.
  rewrite lookup_persist_fresh by exact Hfresh.
  cbn [tx_orders find order_uuid]. rewrite String.eqb_refl.
  eexists. split; [reflexivity |]. cbn [json_order json_foods json_places].
  split; [reflexivity |].
  destruct (fresh_key_details d u Hi Hfresh) as [Hnod Hnop].
  split; [| split; [| split]].
  - rewrite (include_foods_all _ u Hi'). simpl.
    rewrite filter_app, Hnod, (filter_own_details _ _ _ _ Hd). exact Hd.
  - rewrite (include_places_all _ u Hi'). simpl.
    rewrite filter_app, Hnop, (filter_own_deliveries _ _ _ _ Hdl).
    exact Hdl.
  - apply Forall_forall. intros fr Hin.
    apply include_foods_joined in Hin. apply Hin.
  - apply Forall_forall. intros pr Hin.
    apply include_places_joined in Hin. apply Hin.
Qed.

Lemma createOrder_then_getOrderByUuid_witness :
  integral pantry /\
  Order.lookup pantry "k" = None /\
  User.lookup pantry 1 = Some {| user_id := 1 |} /\
  js_strict_neq (total_delivery [drop "table1" 2])
    (total_withdrawal [item "bread" 2]) = false /\
  exists j,
    trace (run (getOrderByUuid (about "k"))
             (run (createOrder (request 1 [item "bread" 2] [drop "table1" 2]))
                (boot [] 0 "k" pantry))) =
      [EvCommit; EvJson 201 (MessageBody "Order created");
       EvJson 200 (OrderBody j)] /\
    json_order j = {| order_uuid := "k"; order_status := CREATED;
                      order_userId := 1 |}.
Proof.
  assert (Hi : integral pantry)
    by (unfold integral; simpl; repeat split; constructor).
  assert (Hf : Forall (food_resolves pantry) [item "bread" 2])
    by (repeat constructor; discriminate).
  assert (Hp : Forall (place_resolves pantry) [drop "table1" 2])
    by (repeat constructor; discriminate).
  split; [exact Hi |]. split; [reflexivity |]. split; [reflexivity |].
  split; [reflexivity |].
  destruct (createOrder_then_getOrderByUuid
              (request 1 [item "bread" 2] [drop "table1" 2]) (about "k")
              0%nat "k" pantry {| user_id := 1 |}
              Hi eq_refl eq_refl eq_refl Hf Hp eq_refl)
    as (j & Ht & Ho & _).
  exists j. split; assumption.
Defined.

(** ** The listing of the orders *)

Lemma all_include_joined d j :
  In j (Order_all_include d) ->
  In (json_order j) (orders d) /\
  Forall (food_joined d (order_uuid (json_order j))) (json_foods j) /\
  Forall (place_joined d (order_uuid (json_order j))) (json_places j).
Proof.
  unfold Order_all_include. intros H. apply in_map_iff in H.
  destruct H as (o & <- & Hin). simpl. split; [exact Hin |]. split.
  - apply Forall_forall. intros fr. apply include_foods_joined.
  - apply Forall_forall. intros pr. apply include_places_joined.
Qed.

Lemma all_include_orders d : map json_order (Order_all_include d) = orders d.
Proof.
  unfold Order_all_include. rewrite map_map. simpl. apply map_id.
Qed.

(** X8. [getAllOrders] never writes and never throws. When the storage
    answers it sends one entry per stored order, in insertion order (none
    for an empty table), every row joined to an entry being a stored line
    item of the key of that entry, paired with a stored catalog entry of the
    id it refers to; when the storage rejects the query it sends nothing and
    passes the caught exception to [next]. *)
Theorem getAllOrders_lists req fs n u d :
  let r := outcome (getAllOrders req) (boot fs n u d) in
  let w := run (getAllOrders req) (boot fs n u d) in
  db w = d /\
  ((exists l,
      r = Ok (Some l) /\ trace w = [] /\
      map json_order l = orders d /\
      Forall (fun j =>
                Forall (food_joined d (order_uuid (json_order j)))
                  (json_foods j) /\
                Forall (place_joined d (order_uuid (json_order j)))
                  (json_places j)) l) \/
   (r = Ok None /\ trace w = [EvNext (Caught DbFailure)])) /\
  (fs = [] -> exists l, r = Ok (Some l)) /\
  (orders d = [] -> fs = [] -> r = Ok (Some [])).
Proof.
  intros r w. subst r w.
  pose proof (getAllOrders_ends req (boot fs n u d)) as H.
  unfold post in H. unfold run, outcome.
  destruct H as (Hd & Ht). simpl in Hd, Ht.
  split; [exact Hd |]. split; [| split].
  - destruct Ht as [(Hr & Ht) | (Hr & Ht)].
    + left. exists (Order_all_include d).
      split; [exact Hr |]. split; [exact Ht |].
      split; [apply all_include_orders |].
      apply Forall_forall. intros j Hj. apply (all_include_joined d j Hj).
    + right. split; assumption.
  - intros ->. exists (Order_all_include d). reflexivity.
  - intros He ->. unfold getAllOrders, try_catch, bind,
      Order_findAll_include, reading.
    rewrite storage_answers by reflexivity. simpl.
    unfold Order_all_include. rewrite He. reflexivity.
Qed.

Lemma getAllOrders_lists_witness :
  orders pantry = [] /\
  outcome (getAllOrders (about "")) (boot [] 0 "" pantry) = Ok (Some []).
Proof.
  split; [reflexivity |].
  exact (proj2 (proj2 (proj2 (getAllOrders_lists (about "") [] 0%nat ""
                                pantry))) eq_refl eq_refl).
Defined.

Lemma find_unique_key os o :
  NoDup (map order_uuid os) -> In o os ->
  find (fun x => String.eqb (order_uuid x) (order_uuid o)) os = Some o.
Proof.
  induction os as [| x rest IH]; intros Hnd Hin; [destruct Hin |].
  simpl in Hnd. inversion Hnd as [| ? ? Hx Hrest]; subst. simpl.
  destruct Hin as [-> | Hin].
  - rewrite String.eqb_refl. reflexivity.
  - destruct (String.eqb_spec (order_uuid x) (order_uuid o)) as [E | E].
    + exfalso. apply Hx. rewrite E. apply in_map. exact Hin.
    + apply IH; assumption.
Qed.

(** X9. The listing and the read by key agree. Whatever [getOrderByUuid]
    answers with 200 is an entry of what [getAllOrders] sends; and when no
    two stored orders share a key, [getOrderByUuid] on the key of an entry of
    the listing answers 200 with that very entry. *)
Theorem getAllOrders_agrees_with_getOrderByUuid req n u d l :
  outcome (getAllOrders req) (boot [] n u d) = Ok (Some l) ->
  (forall r j,
     trace (run (getOrderByUuid r) (boot [] n u d)) =
       [EvJson 200 (OrderBody j)] ->
     In j l) /\
  (NoDup (map order_uuid (orders d)) ->
   forall r j,
     In j l ->
     req_params_uuid r = order_uuid (json_order j) ->
     trace (run (getOrderByUuid r) (boot [] n u d)) =
       [EvJson 200 (OrderBody j)]).
Proof.
  intros Hl.
  assert (El : l = Order_all_include d).
  { unfold outcome, getAllOrders, try_catch, bind, Order_findAll_include,
      reading in Hl.
    rewrite storage_answers in Hl by reflexivity. simpl in Hl.
    congruence. }
  subst l. split.
  - intros r j. unfold run. rewrite getOrderByUuid_served by reflexivity.
    simpl. unfold Order.lookup_include.
    destruct (Order.lookup d (req_params_uuid r)) as [o |] eqn:E;
      [| discriminate].
    intros H. injection H as <-.
    rewrite <- (lookup_uuid _ _ _ E).
    unfold Order_all_include.
    apply in_map_iff. exists o. split; [reflexivity |].
    unfold Order.lookup in E. apply find_some in E. apply E.
  - intros Hnd r j Hj Hr. unfold run.
    rewrite getOrderByUuid_served by reflexivity. simpl.
    unfold Order_all_include in Hj. apply in_map_iff in Hj.
    destruct Hj as (o & <- & Hin). simpl in Hr.
    unfold Order.lookup_include, Order.lookup. rewrite Hr.
    rewrite (find_unique_key _ _ Hnd Hin). reflexivity.
Qed.

Lemma getAllOrders_agrees_with_getOrderByUuid_witness :
  outcome (getAllOrders (about "")) (boot [] 0 "" created_order) =
    Ok (Some [created_order_json]) /\
  NoDup (map order_uuid (orders created_order)) /\
  trace (run (getOrderByUuid (about "k")) (boot [] 0 "" created_order)) =
    [EvJson 200 (OrderBody created_order_json)].
Proof.
  assert (Hnd : NoDup (map order_uuid (orders created_order)))
    by (repeat constructor; intros []).
  split; [reflexivity |]. split; [exact Hnd |].
  exact (proj2 (getAllOrders_agrees_with_getOrderByUuid (about "") 0%nat ""
                  created_order [created_order_json] eq_refl)
           Hnd (about "k") created_order_json (or_introl eq_refl) eq_refl).
Defined.

(** ** The dispatch, whatever the storage does *)

Lemma observed_later w w0 : later w w0 -> observed w0 = observed w.
Proof. intros (_ & _ & Ho & _). unfold observed. rewrite Ho. reflexivity. Qed.

Lemma executeOrder_ends req w :
  post (executeOrder req) w
    (fun r w' =>
       r = Ok tt /\ db w' = db w /\
       (trace w' = trace w ++ [EvNext (Caught DbFailure)] \/
        trace w' =
          trace w ++
          execute_events (Order.lookup_include (db w) (req_params_uuid req))
            (observed w))).
Proof.
  unfold executeOrder. apply post_try_catch, post_bind, post_reading.
  - intros w0 L _. apply post_next. simpl.
    split; [reflexivity |]. split; [apply L |]. left.
    destruct L as (_ & _ & _ & _ & -> & _). reflexivity.
  - intros w0 L. unfold execute_events.
    destruct (Order.lookup_include _ _) as [j |].
    + destruct (negb (OrderStatus_eqb _ _)).
      * apply post_next. simpl. split; [reflexivity |]. split; [apply L |].
        right. destruct L as (_ & _ & _ & _ & -> & _). reflexivity.
      * apply post_bind. unfold post at 1, executedOrderStream_observed.
        simpl. rewrite (observed_later _ _ L).
        destruct (negb (observed w)).
        -- apply post_next. simpl. split; [reflexivity |].
           split; [apply L |]. right.
           destruct L as (_ & _ & _ & _ & -> & _). reflexivity.
        -- apply post_bind. unfold post at 1, executedOrderStream_next.
           simpl. apply post_json. simpl. split; [reflexivity |].
           split; [apply L |]. right.
           destruct L as (_ & _ & _ & _ & -> & _).
           rewrite <- app_assoc. reflexivity.
    + apply post_next. simpl. split; [reflexivity |]. split; [apply L |].
      right. destruct L as (_ & _ & _ & _ & -> & _). reflexivity.
Qed.

(** X10. For a key that no stored order has, [executeOrder] answers
    ORDER_NOT_FOUND, whether the channel has subscribers or not (or passes on
    the caught exception when the storage rejects the query); nothing is
    published and nothing is written. *)
Theorem executeOrder_unknown_key req fs n u d :
  Order.lookup d (req_params_uuid req) = None ->
  let w := run (executeOrder req) (boot fs n u d) in
  (trace w = [EvNext (Enum ORDER_NOT_FOUND)] \/
   trace w = [EvNext (Caught DbFailure)]) /\
  (fs = [] -> trace w = [EvNext (Enum ORDER_NOT_FOUND)]) /\
  published (trace w) = [] /\
  db w = d.
Proof.
  intros E w. subst w.
  pose proof (executeOrder_ends req (boot fs n u d)) as H.
  unfold post in H. unfold run.
  destruct H as (_ & Hd & Ht). simpl in Hd, Ht.
  unfold Order.lookup_include in Ht. rewrite E in Ht. simpl in Ht.
  split; [destruct Ht; auto |]. split; [| split; [| exact Hd]].
  - intros ->. rewrite executeOrder_served by reflexivity. simpl.
    unfold Order.lookup_include. rewrite E. reflexivity.
  - destruct Ht as [-> | ->]; reflexivity.
Qed.

Lemma executeOrder_unknown_key_witness :
  Order.lookup pantry "k" = None /\
  trace (run (executeOrder (about "k")) (boot [] 2 "" pantry)) =
    [EvNext (Enum ORDER_NOT_FOUND)].
Proof.
  split; [reflexivity |].
  exact (proj1 (proj2 (executeOrder_unknown_key (about "k") [] 2%nat ""
                         pantry eq_refl)) eq_refl).
Defined.

(** X11. Under every schedule of rejecting storage calls, [executeOrder]
    publishes at most one message, and when it publishes, the channel has a
    subscriber, an order of the requested key is stored in status CREATED,
    the message is of kind EXECUTE_ORDER and carries that order with its
    joined rows, and the answer is 200. *)
Theorem executeOrder_publishes_only_created req fs n u d m :
  In (EvPublish m) (trace (run (executeOrder req) (boot fs n u d))) ->
  (0 < n)%nat /\
  exists j,
    Order.lookup_include d (req_params_uuid req) = Some j /\
    order_status (json_order j) = CREATED /\
    m = {| msg_type := EXECUTE_ORDER;
           msg_uuid := req_params_uuid req;
           msg_payload := j |} /\
    trace (run (executeOrder req) (boot fs n u d)) =
      [EvPublish m; EvJson 200 (MessageBody "Order started succesfully")].
Proof.
  pose proof (executeOrder_ends req (boot fs n u d)) as H.
  unfold post in H. unfold run.
  destruct H as (_ & _ & Ht). simpl in Ht.
  destruct Ht as [-> | ->].
  { intros [H | []]. discriminate H. }
  unfold execute_events.
  destruct (Order.lookup_include d (req_params_uuid req)) as [j |] eqn:E.
  2:{ intros [H | []]. discriminate H. }
  destruct (OrderStatus_eqb (order_status (json_order j)) CREATED) eqn:Es;
    simpl.
  2:{ intros [H | []]. discriminate H. }
  unfold observed. simpl.
  destruct n as [| n']; simpl.
  { intros [H | []]. discriminate H. }
  intros [H | [H | []]]; [| discriminate H].
  injection H as <-. split; [lia |].
  exists j. split; [reflexivity |].
  split; [apply OrderStatus_eqb_eq; exact Es |].
  split; [| reflexivity].
  unfold execute_message.
  rewrite (lookup_uuid _ _ _ (lookup_include_order _ _ _ E)). reflexivity.
Qed.

Lemma executeOrder_publishes_only_created_witness :
  In (EvPublish (execute_message created_order_json))
    (trace (run (executeOrder (about "k")) (boot [] 1 "" created_order))) /\
  (0 < 1)%nat.
Proof.
  assert (H : In (EvPublish (execute_message created_order_json))
                (trace (run (executeOrder (about "k"))
                          (boot [] 1 "" created_order))))
    by (left; reflexivity).
  split; [exact H |].
  exact (proj1 (executeOrder_publishes_only_created (about "k") [] 1%nat ""
                  created_order _ H)).
Defined.

Lemma published_app t1 t2 : published (t1 ++ t2) = published t1 ++ published t2.
Proof. apply filter_app. Qed.

Lemma executeOrder_again req j w :
  faults w = [] ->
  Order.lookup_include (db w) (req_params_uuid req) = Some j ->
  order_status (json_order j) = CREATED ->
  observed w = true ->
  let w' := run (executeOrder req) w in
  faults w' = [] /\ db w' = db w /\ observed w' = true /\
  published (trace w') =
    published (trace w) ++ [EvPublish (execute_message j)].
Proof.
  intros Hf E Hs Ho w'. subst w'. unfold run.
  rewrite executeOrder_served by exact Hf. simpl.
  rewrite E, Hs, Ho. simpl.
  split; [exact Hf |]. split; [reflexivity |]. split; [exact Ho |].
  rewrite <- app_assoc, published_app. reflexivity.
Qed.

(** X12. [executeOrder] does not mark the order as dispatched: called [k]
    times on an order in status CREATED, with a subscriber on the channel, it
    publishes the same message [k] times, and the order is still stored in
    status CREATED. *)
Theorem executeOrder_dispatches_each_time req n u d j k :
  Order.lookup_include d (req_params_uuid req) = Some j ->
  order_status (json_order j) = CREATED ->
  (0 < n)%nat ->
  let w := Nat.iter k (run (executeOrder req)) (boot [] n u d) in
  published (trace w) = repeat (EvPublish (execute_message j)) k /\
  Order.lookup (db w) (req_params_uuid req) = Some (json_order j) /\
  db w = d.
Proof.
  intros E Hs Hn w. subst w.
  assert (H : let w := Nat.iter k (run (executeOrder req)) (boot [] n u d) in
              faults w = [] /\ db w = d /\ observed w = true /\
              published (trace w) =
                repeat (EvPublish (execute_message j)) k).
  { induction k as [| k IH]; simpl.
    - split; [reflexivity |]. split; [reflexivity |].
      split; [| reflexivity]. unfold observed. simpl.
      apply Nat.ltb_lt. exact Hn.
    - destruct IH as (Hf & Hd & Ho & Hp).
      destruct (executeOrder_again req j _ Hf) as (Hf' & Hd' & Ho' & Hp');
        [rewrite Hd; exact E | exact Hs | exact Ho |].
      split; [exact Hf' |]. split; [congruence |]. split; [exact Ho' |].
      rewrite Hp', Hp. symmetry. apply (repeat_cons k). }
  destruct H as (_ & Hd & _ & Hp).
  split; [exact Hp |]. split; [| exact Hd].
  rewrite Hd. apply lookup_include_order. exact E.
Qed.

Lemma executeOrder_dispatches_each_time_witness :
  Order.lookup_include created_order "k" = Some created_order_json /\
  (0 < 1)%nat /\
  published
    (trace (Nat.iter 3 (run (executeOrder (about "k")))
              (boot [] 1 "" created_order))) =
    repeat (EvPublish (execute_message created_order_json)) 3.
Proof.
  split; [reflexivity |]. split; [lia |].
  exact (proj1 (executeOrder_dispatches_each_time (about "k") 1%nat ""
                  created_order created_order_json 3%nat
                  eq_refl eq_refl (le_n 1))).
Defined.

(** ** The overwrite of a status *)

(** X13. Round trip. For a stored order, [updateOrderStatus] followed by
    [getOrderStatus] on the same key answers 200 with the label of the status
    just written, whatever the status stored before. *)
Theorem updateOrderStatus_then_getOrderStatus req uuid status n u d order :
  Order.lookup d uuid = Some order ->
  req_params_uuid req = uuid ->
  trace (run (getOrderStatus req)
           (run (updateOrderStatus uuid status) (boot [] n u d))) =
    [EvJson 200 (StatusBody (status_label status))].
Proof.
  intros E Hr. unfold run at 2.
  rewrite updateOrderStatus_served by reflexivity. simpl. rewrite E.
  unfold run. rewrite getOrderStatus_served by reflexivity. simpl.
  rewrite Hr, lookup_overwrite, E. simpl. unfold Order.set_status.
  rewrite (lookup_uuid _ _ _ E), String.eqb_refl. reflexivity.
Qed.

Lemma updateOrderStatus_then_getOrderStatus_witness :
  Order.lookup created_order "k" =
    Some {| order_uuid := "k"; order_status := CREATED; order_userId := 1 |} /\
  trace (run (getOrderStatus (about "k"))
           (run (updateOrderStatus "k" COMPLETED)
              (boot [] 0 "" created_order))) =
    [EvJson 200 (StatusBody "Completed")].
Proof.
  split; [reflexivity |].
  exact (updateOrderStatus_then_getOrderStatus (about "k") "k" COMPLETED
           0%nat "" created_order _ eq_refl eq_refl).
Defined.

Lemma set_status_twice u s1 s2 o :
  Order.set_status u s2 (Order.set_status u s1 o) = Order.set_status u s2 o.
Proof.
  unfold Order.set_status.
  destruct (String.eqb (order_uuid o) u) eqn:E; simpl; rewrite E; reflexivity.
Qed.

Lemma overwrite_twice u s1 s2 d :
  Order.overwrite u s2 (Order.overwrite u s1 d) = Order.overwrite u s2 d.
Proof.
  unfold Order.overwrite; simpl. rewrite map_map.
  f_equal. apply map_ext. intros o. apply set_status_twice.
Qed.

Lemma lookup_overwrite_none u s d v :
  Order.lookup (Order.overwrite u s d) v = None <-> Order.lookup d v = None.
Proof.
  rewrite lookup_overwrite. destruct (Order.lookup d v); simpl;
    split; intros H; congruence.
Qed.

(** X14. The last write wins: two calls of [updateOrderStatus] on the same
    key leave the tables as the second call alone would, be the order stored
    or not; in particular a repeated call changes nothing more. *)
Theorem updateOrderStatus_last_write_wins uuid s1 s2 n u d :
  db (run (updateOrderStatus uuid s2)
        (run (updateOrderStatus uuid s1) (boot [] n u d))) =
  db (run (updateOrderStatus uuid s2) (boot [] n u d)).
Proof.
  unfold run.
  rewrite (updateOrderStatus_served uuid s1) by reflexivity. simpl.
  rewrite (updateOrderStatus_served uuid s2 (boot [] n u d)) by reflexivity.
  simpl.
  destruct (Order.lookup d uuid) as [o |] eqn:E; simpl.
  - rewrite updateOrderStatus_served by reflexivity. simpl.
    rewrite lookup_overwrite, E. simpl. apply overwrite_twice.
  - rewrite updateOrderStatus_served by reflexivity. simpl.
    rewrite E. reflexivity.
Qed.

Lemma set_status_swap u1 s1 u2 s2 o :
  u1 <> u2 ->
  Order.set_status u2 s2 (Order.set_status u1 s1 o) =
  Order.set_status u1 s1 (Order.set_status u2 s2 o).
Proof.
  intros Hne. unfold Order.set_status.
  destruct (String.eqb_spec (order_uuid o) u1) as [E1 | E1];
    destruct (String.eqb_spec (order_uuid o) u2) as [E2 | E2]; simpl;
    try congruence.
  - destruct (String.eqb_spec (order_uuid o) u1);
      destruct (String.eqb_spec (order_uuid o) u2); congruence.
  - destruct (String.eqb_spec (order_uuid o) u1);
      destruct (String.eqb_spec (order_uuid o) u2); congruence.
  - destruct (String.eqb_spec (order_uuid o) u1);
      destruct (String.eqb_spec (order_uuid o) u2); congruence.
Qed.

(** X15. Calls of [updateOrderStatus] on two different keys do not
    interfere: made in either order they leave the same tables. *)
Theorem updateOrderStatus_keys_independent u1 s1 u2 s2 n u d :
  u1 <> u2 ->
  db (run (updateOrderStatus u2 s2)
        (run (updateOrderStatus u1 s1) (boot [] n u d))) =
  db (run (updateOrderStatus u1 s1)
        (run (updateOrderStatus u2 s2) (boot [] n u d))).
Proof.
  intros Hne. unfold run.
  rewrite (updateOrderStatus_served u1 s1 (boot [] n u d)) by reflexivity.
  rewrite (updateOrderStatus_served u2 s2 (boot [] n u d)) by reflexivity.
  simpl.
  destruct (Order.lookup d u1) as [o1 |] eqn:E1;
    destruct (Order.lookup d u2) as [o2 |] eqn:E2; simpl;
    rewrite !updateOrderStatus_served by reflexivity; simpl;
    rewrite ?lookup_overwrite, ?E1, ?E2; simpl; try reflexivity.
  unfold Order.overwrite; simpl. rewrite !map_map. f_equal.
  apply map_ext. intros o. apply set_status_swap. exact Hne.
Qed.

Lemma updateOrderStatus_keys_independent_witness :
  "k" <> "m" /\
  db (run (updateOrderStatus "m" FAILED)
        (run (updateOrderStatus "k" RUNNING) (boot [] 0 "" created_order))) =
  db (run (updateOrderStatus "k" RUNNING)
        (run (updateOrderStatus "m" FAILED) (boot [] 0 "" created_order))).
Proof.
  assert (H : "k" <> "m") by discriminate.
  split; [exact H |].
  exact (updateOrderStatus_keys_independent "k" RUNNING "m" FAILED 0%nat ""
           created_order H).
Defined.

Lemma updateOrderStatus_ends uuid status w :
  post (updateOrderStatus uuid status) w
    (fun r w' =>
       trace w' = trace w /\ tx w' = tx w /\
       match r with
       | Ok _ =>
           Order.lookup (db w) uuid <> None /\
           db w' = Order.overwrite uuid status (db w)
       | Throw TypeError => Order.lookup (db w) uuid = None /\ db w' = db w
       | Throw DbFailure => db w' = db w
       | Throw AlreadyFinished => False
       end).
Proof.
  unfold updateOrderStatus. apply post_bind, post_reading.
  - intros w0 (Hd & Htx & _ & _ & Ht & _) _. auto.
  - intros w0 (Hd & Htx & _ & _ & Ht & _).
    destruct (Order.lookup (db w) uuid) as [order |] eqn:E.
    + apply post_storage.
      * intros w1 (Hd1 & Htx1 & _ & _ & Ht1 & _) _.
        repeat split; congruence.
      * intros w1 (Hd1 & Htx1 & _ & _ & Ht1 & _). simpl.
        split; [congruence |]. split; [congruence |].
        split; [discriminate |].
        rewrite Hd1, Hd, (lookup_uuid _ _ _ E). reflexivity.
    + apply post_throw. auto.
Qed.

(** X16. Under every schedule of rejecting storage calls,
    [updateOrderStatus] answers nothing and publishes nothing, and the
    status is written exactly when the call returns normally: then an order
    of the key is stored and the orders of that key have the given status,
    the rest of the tables being as before. When it throws, the tables are
    unchanged, and the exception is the dereference of a missing order only
    if no order has the key. *)
Theorem updateOrderStatus_writes_iff_returns uuid status fs n u d :
  let r := outcome (updateOrderStatus uuid status) (boot fs n u d) in
  let w := run (updateOrderStatus uuid status) (boot fs n u d) in
  trace w = [] /\
  (r = Ok tt ->
   Order.lookup d uuid <> None /\ db w = Order.overwrite uuid status d /\
   forall o, In o (orders (db w)) -> order_uuid o = uuid ->
             order_status o = status) /\
  (forall x, r = Throw x ->
             db w = d /\ (x = TypeError -> Order.lookup d uuid = None)).
Proof.
  intros r w. subst r w.
  pose proof (updateOrderStatus_ends uuid status (boot fs n u d)) as H.
  unfold post in H. unfold run, outcome.
  destruct (updateOrderStatus uuid status (boot fs n u d)) as [[[] | x] w'];
    simpl in *; destruct H as (Ht & _ & H).
  - split; [exact Ht |]. split; [| intros x Hx; discriminate Hx].
    intros _. destruct H as (Hl & Hd). split; [exact Hl |].
    split; [exact Hd |].
    intros o Hin Hk. rewrite Hd in Hin. simpl in Hin.
    apply in_map_iff in Hin. destruct Hin as (o0 & <- & _).
    rewrite set_status_uuid in Hk. unfold Order.set_status.
    rewrite Hk, String.eqb_refl. reflexivity.
  - split; [exact Ht |]. split; [intros Hx; discriminate Hx |].
    intros y Hy. injection Hy as <-.
    destruct x; [split; [exact H | discriminate] | | destruct H].
    destruct H as (Hl & Hd). split; [exact Hd | intros _; exact Hl].
Qed.

Lemma updateOrderStatus_writes_iff_returns_witness :
  outcome (updateOrderStatus "k" RUNNING) (boot [false; true] 0 ""
                                             created_order) =
    Throw DbFailure /\
  db (run (updateOrderStatus "k" RUNNING)
        (boot [false; true] 0 "" created_order)) = created_order.
Proof.
  split; [reflexivity |].
  exact (proj1 (proj2 (proj2 (updateOrderStatus_writes_iff_returns "k"
                                RUNNING [false; true] 0%nat ""
                                created_order))
                  DbFailure eq_refl)).
Defined.

Lemma lookup_include_overwrite u s d j :
  Order.lookup_include d u = Some j ->
  Order.lookup_include (Order.overwrite u s d) u =
    Some {| json_order := {| order_uuid := u; order_status := s;
                             order_userId := order_userId (json_order j) |};
            json_foods := json_foods j;
            json_places := json_places j |}.
Proof.
  unfold Order.lookup_include. rewrite lookup_overwrite.
  destruct (Order.lookup d u) as [o |] eqn:E; [| discriminate].
  intros H. injection H as <-. simpl. unfold Order.set_status.
  rewrite (lookup_uuid _ _ _ E), String.eqb_refl. reflexivity.
Qed.

(** X17. How the overwrite and the dispatch compose. After
    [updateOrderStatus] has written a status other than CREATED on a stored
    order, [executeOrder] on its key answers ORDER_ALREADY_STARTED and
    publishes nothing; after it has written CREATED, whatever the status
    before (COMPLETED or FAILED included), [executeOrder] dispatches the
    order again when the channel has a subscriber. *)
Theorem updateOrderStatus_then_executeOrder req status n u d j :
  Order.lookup_include d (req_params_uuid req) = Some j ->
  let w := run (executeOrder req)
             (run (updateOrderStatus (req_params_uuid req) status)
                (boot [] n u d)) in
  (status <> CREATED -> trace w = [EvNext (Enum ORDER_ALREADY_STARTED)]) /\
  (status = CREATED -> (0 < n)%nat ->
   trace w =
     [EvPublish
        {| msg_type := EXECUTE_ORDER;
           msg_uuid := req_params_uuid req;
           msg_payload :=
             {| json_order :=
                  {| order_uuid := req_params_uuid req;
                     order_status := CREATED;
                     order_userId := order_userId (json_order j) |};
                json_foods := json_foods j;
                json_places := json_places j |} |};
      EvJson 200 (MessageBody "Order started succesfully")]).
Proof.
  intros E w. subst w. unfold run.
  rewrite updateOrderStatus_served by reflexivity. simpl.
  rewrite (lookup_include_order _ _ _ E). simpl.
  rewrite executeOrder_served by reflexivity. simpl.
  rewrite (lookup_include_overwrite _ status _ _ E). simpl.
  split.
  - intros Hs. destruct (OrderStatus_eqb status CREATED) eqn:Es.
    + apply OrderStatus_eqb_eq in Es. contradiction.
    + reflexivity.
  - intros -> Hn. simpl. unfold observed. simpl.
    destruct n as [| n']; [lia | reflexivity].
Qed.

Lemma updateOrderStatus_then_executeOrder_witness :
  Order.lookup_include running_order "k" =
    Some {| json_order := {| order_uuid := "k"; order_status := RUNNING;
                             order_userId := 1 |};
            json_foods := []; json_places := [] |} /\
  COMPLETED <> CREATED /\
  trace (run (executeOrder (about "k"))
           (run (updateOrderStatus "k" COMPLETED)
              (boot [] 1 "" running_order))) =
    [EvNext (Enum ORDER_ALREADY_STARTED)].
Proof.
  assert (H : COMPLETED <> CREATED) by discriminate.
  split; [reflexivity |]. split; [exact H |].
  exact (proj1 (updateOrderStatus_then_executeOrder (about "k") COMPLETED
                  1%nat "" running_order _ eq_refl) H).
Defined.

(** ** Answers and statuses along the calls *)

Lemma getOrderStatus_ends req w :
  post (getOrderStatus req) w
    (fun r w' =>
       r = Ok tt /\
       exists e, is_reply e = true /\ trace w' = trace w ++ [e]).
Proof.
  unfold getOrderStatus. apply post_try_catch, post_bind, post_reading.
  - intros w0 (_ & _ & _ & _ & Ht & _) _. apply post_next. simpl.
    split; [reflexivity |]. eexists. split; [| rewrite Ht; reflexivity].
    reflexivity.
  - intros w0 (_ & _ & _ & _ & Ht & _).
    destruct (Order.lookup _ _) as [order |].
    + apply post_json. simpl. split; [reflexivity |].
      eexists. split; [| rewrite Ht; reflexivity]. reflexivity.
    + apply post_next. simpl. split; [reflexivity |].
      eexists. split; [| rewrite Ht; reflexivity]. reflexivity.
Qed.

(** X18. Under every schedule of rejecting storage calls, [getOrderByUuid],
    [getOrderStatus] and [executeOrder] return normally and answer exactly
    once (one call of [next] or one [res.json]). [createOrder] either
    returns normally, having answered exactly once, or lets an exception
    escape, having answered nothing, and this only under a schedule with a
    rejection; with the storage answering it returns normally. When
    [sequelize.transaction()] itself rejects, [createOrder] throws and
    answers nothing at all. *)
Theorem handlers_answer_once req fs n u d :
  (outcome (getOrderByUuid req) (boot fs n u d) = Ok tt /\
   length (replies (trace (run (getOrderByUuid req) (boot fs n u d)))) =
     1%nat) /\
  (outcome (getOrderStatus req) (boot fs n u d) = Ok tt /\
   length (replies (trace (run (getOrderStatus req) (boot fs n u d)))) =
     1%nat) /\
  (outcome (executeOrder req) (boot fs n u d) = Ok tt /\
   length (replies (trace (run (executeOrder req) (boot fs n u d)))) =
     1%nat) /\
  ((outcome (createOrder req) (boot fs n u d) = Ok tt /\
    length (replies (trace (run (createOrder req) (boot fs n u d)))) =
      1%nat) \/
   ((exists x, outcome (createOrder req) (boot fs n u d) = Throw x) /\
    replies (trace (run (createOrder req) (boot fs n u d))) = [] /\
    In true fs)) /\
  outcome (createOrder req) (boot [] n u d) = Ok tt /\
  (outcome (createOrder req) (boot (true :: fs) n u d) = Throw DbFailure /\
   trace (run (createOrder req) (boot (true :: fs) n u d)) = []).
Proof.
  split; [| split; [| split; [| split; [| split]]]].
  - destruct (getOrderByUuid_ends req (boot fs n u d)) as (Hr & _ & Ht).
    split; [exact Hr |]. unfold run. simpl in Ht.
    destruct Ht as [-> | ->]; [reflexivity |].
    destruct (Order.lookup_include d (req_params_uuid req)); reflexivity.
  - destruct (getOrderStatus_ends req (boot fs n u d))
      as (Hr & e & He & Ht).
    split; [exact Hr |]. unfold run. rewrite Ht. simpl. rewrite He.
    reflexivity.
  - destruct (executeOrder_ends req (boot fs n u d)) as (Hr & _ & Ht).
    split; [exact Hr |]. unfold run. simpl in Ht.
    destruct Ht as [-> | ->]; [reflexivity |].
    unfold execute_events.
    destruct (Order.lookup_include d (req_params_uuid req)) as [j |];
      [| reflexivity].
    destruct (negb (OrderStatus_eqb _ _)); [reflexivity |].
    destruct (negb (observed _)); reflexivity.
  - pose proof (createOrder_ends req (boot fs n u d)) as H.
    unfold post, createOrder_post in H. unfold outcome, run.
    destruct (createOrder req (boot fs n u d)) as [r w']. simpl in *.
    destruct H as [(-> & -> & _) | [(-> & _ & _ & a & -> & _) | (_ & Hf & Ht)]].
    + left. split; reflexivity.
    + left. split; reflexivity.
    + right.
      destruct Ht as [(-> & ->) | [(-> & ->) | (-> & [-> | ->])]];
        (split; [eexists; reflexivity | split; [reflexivity | exact Hf]]).
  - destruct (createOrder_served req n u d)
      as [(a & _ & Hrun) | (user & details & deliveries & _ & Hrun)];
      unfold outcome; rewrite Hrun; reflexivity.
  - split; reflexivity.
Qed.

Lemma serve_no_update_step s w :
  not_update s ->
  db (serve s w) = db w \/ exists u req, commits (db w) u req (db (serve s w)).
Proof.
  destruct s as [[k req | req | req | req | uuid status] | req]; simpl;
    intros Hs.
  - pose proof (createOrder_ends req (with_key k w)) as H.
    unfold post, createOrder_post in H. unfold run.
    destruct (createOrder req (with_key k w)) as [r w']. simpl in *.
    destruct H as [(_ & _ & Hc & _) | [(_ & Hd & _) | (Hd & _)]].
    + right. exists k, req. exact Hc.
    + left. exact Hd.
    + left. exact Hd.
  - left. exact (proj2 (getOrderByUuid_reads req w)).
  - left. exact (proj2 (getOrderStatus_reads req w)).
  - left. exact (proj2 (executeOrder_reads req w)).
  - destruct Hs.
  - left. exact (proj1 (getAllOrders_ends req w)).
Qed.

(** X19. A status changes through [updateOrderStatus] only. Along a sequence
    of calls with no [updateOrderStatus], under every schedule of rejecting
    storage calls, the stored orders stay exactly as they are, status
    included, and every order that has been added is in status CREATED. *)
Theorem statuses_kept_without_update ss :
  forall w,
    Forall not_update ss ->
    exists more,
      orders (db (serve_all ss w)) = orders (db w) ++ more /\
      Forall (fun o => order_status o = CREATED) more.
Proof.
  induction ss as [| s rest IH]; intros w Hss; simpl.
  - exists []. rewrite app_nil_r. split; [reflexivity | constructor].
  - inversion Hss as [| ? ? Hs Hrest]; subst.
    destruct (IH (serve s w) Hrest) as (more & Ho & Hc).
    destruct (serve_no_update_step s w Hs) as [Hd | (u & req & Hcm)].
    + exists more. rewrite Ho, Hd. split; [reflexivity | exact Hc].
    + destruct Hcm as (user & details & deliveries & _ & _ & _ & _ & _ & _
                       & Hd).
      eexists. rewrite Ho, Hd. simpl. rewrite <- app_assoc.
      split; [reflexivity |]. constructor; [reflexivity | exact Hc].
Qed.

Lemma statuses_kept_without_update_witness :
  Forall not_update
    [ServeCall (CallExecuteOrder (about "k"));
     ServeCall (CallCreateOrder "m"
                  (request 1 [item "bread" 2] [drop "table1" 2]));
     ServeGetAllOrders (about "")] /\
  exists more,
    orders
      (db (serve_all
             [ServeCall (CallExecuteOrder (about "k"));
              ServeCall (CallCreateOrder "m"
                           (request 1 [item "bread" 2] [drop "table1" 2]));
              ServeGetAllOrders (about "")]
             (boot [] 1 "" running_order))) =
      orders running_order ++ more /\
    Forall (fun o => order_status o = CREATED) more.
Proof.
  assert (H : Forall not_update
                [ServeCall (CallExecuteOrder (about "k"));
                 ServeCall (CallCreateOrder "m"
                              (request 1 [item "bread" 2]
                                 [drop "table1" 2]));
                 ServeGetAllOrders (about "")])
    by (repeat constructor).
  split; [exact H |].
  exact (statuses_kept_without_update _ (boot [] 1 "" running_order) H).
Defined.
